(** * betr_spreads: the persistence model and the database gateway

    A shallow embedding of [backend/models/base.py] and
    [backend/database/db_pgsql.py], with the properties of the
    persistence-model contract proved about it.

    The SQL engine, the ORM session, pandas and pydantic are external
    collaborators of the repository.  Each is given a small executable
    model, stated next to the operation that uses it; the functions of
    the repository are then transcribed on top of these models.  What a
    model cannot know is a parameter: the Unicode database behind
    [str.lower] and [\d], the answer of the SQL engine to the text of a
    raw statement, the clock, the key sequence, and the constraints of
    the database beyond those of the declared columns. *)

From Stdlib Require Import ZArith NArith String Ascii List Bool Lia ZifyBool.
From stdpp Require Import base option list gmap strings fin_maps.

Local Open Scope string_scope.
Local Open Scope Z_scope.

(** ** Character classes of the regular expression

    The expression on ASCII names, which the names of classes usually
    are: strings of characters below 128, on which [\d] is [[0-9]] and
    [str.lower] changes the capitals [A] to [Z].  [UniStr] below takes
    every name. *)

Module PyStr.

Definition code (c : ascii) : N := N_of_ascii c.

(** [[A-Z]] *)
Definition is_upper (c : ascii) : bool :=
  (65 <=? code c)%N && (code c <=? 90)%N.

(** [[a-z]] *)
Definition is_lower (c : ascii) : bool :=
  (97 <=? code c)%N && (code c <=? 122)%N.

(** [\d] *)
Definition is_digit (c : ascii) : bool :=
  (48 <=? code c)%N && (code c <=? 57)%N.

(** [[a-z\d]] *)
Definition is_lower_or_digit (c : ascii) : bool := is_lower c || is_digit c.

Definition lower_char (c : ascii) : ascii :=
  if is_upper c then ascii_of_N (code c + 32) else c.

(** [s.lower()] *)
Fixpoint lower (s : string) : string :=
  match s with
  | EmptyString => EmptyString
  | String c rest => String (lower_char c) (lower rest)
  end.

(** [re.sub(r'([a-z\d])([A-Z])', r'\1_\2', s)]: the scan goes from left
    to right; where the two characters at the cursor match the pattern
    they are replaced by group 1, an underscore and group 2, and the scan
    resumes after the match (matches do not overlap); elsewhere one
    character is copied. *)
Fixpoint re_sub_camel (s : string) : string :=
  match s with
  | EmptyString => EmptyString
  | String a rest =>
      match rest with
      | EmptyString => String a EmptyString
      | String b rest' =>
          if is_lower_or_digit a && is_upper b
          then String a (String "_" (String b (re_sub_camel rest')))
          else String a (re_sub_camel rest)
      end
  end.

(** The rule in the words of the specification: an underscore goes
    between every lowercase-or-digit character and an uppercase character
    that follows it.  It is compared with [re_sub_camel] below. *)
Fixpoint insert_underscores (s : string) : string :=
  match s with
  | EmptyString => EmptyString
  | String a rest =>
      match rest with
      | EmptyString => String a EmptyString
      | String b _ =>
          if is_lower_or_digit a && is_upper b
          then String a (String "_" (insert_underscores rest))
          else String a (insert_underscores rest)
      end
  end.

(** No capital letter occurs in [s]. *)
Fixpoint no_upper (s : string) : bool :=
  match s with
  | EmptyString => true
  | String c rest => negb (is_upper c) && no_upper rest
  end.




End PyStr.

(** ** [__tablename__]

    [Base.__tablename__] and [BasesqlModel.__tablename__] have the same
    body; [name] is [cls.__name__]. *)

Definition __tablename__ (name : string) : string :=
  PyStr.lower (PyStr.re_sub_camel name).

(** ** Names beyond ASCII

    A Python [str] is a sequence of code points, and two parts of the
    expression look at the whole of Unicode: [str.lower()] follows the
    case mappings of the Unicode database (one character can become two,
    and a capital sigma is lowered by its place in the word), and [\d]
    matches every decimal digit of the database.  [[a-z]] and [[A-Z]]
    are the ASCII ranges.  [UniStr] transcribes the expression on code
    points, over a database that is a parameter; on ASCII names it is
    [__tablename__] above. *)

Module UniStr.

(** What the expression uses of the Unicode database. *)
Record unicode : Type := Unicode {
  str_lower : list N -> list N;   (* [s.lower()] *)
  is_decimal : N -> bool          (* the class [\d] *)
}.

(** [[A-Z]] *)
Definition is_upper (c : N) : bool := (65 <=? c)%N && (c <=? 90)%N.

(** [[a-z]] *)
Definition is_lower (c : N) : bool := (97 <=? c)%N && (c <=? 122)%N.

(** [[a-z\d]] *)
Definition is_lower_or_digit (U : unicode) (c : N) : bool :=
  is_lower c || is_decimal U c.

(** The underscore *)
Definition underscore : N := 95%N.

(** [re.sub(r'([a-z\d])([A-Z])', r'\1_\2', s)], as in [PyStr] *)
Fixpoint re_sub_camel (U : unicode) (s : list N) : list N :=
  match s with
  | [] => []
  | a :: rest =>
      match rest with
      | [] => [a]
      | b :: rest' =>
          if is_lower_or_digit U a && is_upper b
          then a :: underscore :: b :: re_sub_camel U rest'
          else a :: re_sub_camel U rest
      end
  end.

(** The rule in the words of the specification, as in [PyStr] *)
Fixpoint insert_underscores (U : unicode) (s : list N) : list N :=
  match s with
  | [] => []
  | a :: rest =>
      match rest with
      | [] => [a]
      | b :: _ =>
          if is_lower_or_digit U a && is_upper b
          then a :: underscore :: insert_underscores U rest
          else a :: insert_underscores U rest
      end
  end.

Definition __tablename__ (U : unicode) (name : list N) : list N :=
  str_lower U (re_sub_camel U name).

(** The code points of a string of 8-bit characters. *)
Definition codes (s : string) : list N :=
  map N_of_ascii (list_ascii_of_string s).

(** Every character is an ASCII character. *)
Definition ascii_only (s : list N) : bool := forallb (fun c => (c <? 128)%N) s.

(** [c.lower()] for an ASCII character *)
Definition ascii_lower (c : N) : N := if is_upper c then (c + 32)%N else c.

(** What is used of the database: on ASCII text [lower] changes the
    capitals [A] to [Z] and nothing else; the ASCII decimal digits are
    [0] to [9]; no character is lowered to an underscore, so a lowered
    text starts with one only where the text did. *)
Record faithful (U : unicode) : Prop := Faithful {
  lower_ascii :
    forall s : list N, ascii_only s = true -> str_lower U s = map ascii_lower s;
  decimal_ascii :
    forall c : N,
      (c <? 128)%N = true -> is_decimal U c = (48 <=? c)%N && (c <=? 57)%N;
  lower_underscore :
    forall s : list N,
      head (str_lower U s) = Some underscore -> head s = Some underscore
}.

(** A part of the database, for the examples: ASCII, the capital E with
    acute accent (201, lowered to 233), the capital I with dot above
    (304, lowered to the two characters 105 and 775) and the
    Arabic-Indic digits (1632 to 1641). *)
Definition sample_lower (c : N) : list N :=
  if is_upper c then [(c + 32)%N]
  else if (c =? 201)%N then [233%N]
  else if (c =? 304)%N then [105%N; 775%N]
  else [c].

Definition sample : unicode :=
  Unicode (flat_map sample_lower)
    (fun c => (48 <=? c)%N && (c <=? 57)%N || (1632 <=? c)%N && (c <=? 1641)%N).

End UniStr.


(** ** Exceptions and results *)

Inductive exn : Type :=
  | ProgrammingError (msg : string)   (* the statement names an unknown relation or column *)
  | NoSuchTableError (name : string)  (* reflection of an absent table *)
  | IntegrityError (msg : string)     (* a constraint is violated *)
  | DataError (msg : string)          (* a value is out of the range of its column *)
  | InvalidRequestError (msg : string) (* [filter_by] on a name the class does not map *)
  | StaleDataError                    (* an UPDATE matched no row *)
  | ArgumentError (msg : string)      (* sqlalchemy.exc.ArgumentError *)
  | ValueError (msg : string)
  | TypeError (msg : string)
  | ValidationError (errors : list (nat * string)).

Inductive result (A : Type) : Type :=
  | Ok (a : A)
  | Raise (e : exn).
Arguments Ok {A} a.
Arguments Raise {A} e.

(** ** The database behind an engine

    A database is a finite map from table names to tables; a table has
    its column declarations and its rows in storage order.  A row maps
    column names to values, and a column without an entry is NULL. *)

Inductive value : Type :=
  | VNull
  | VInt (n : Z)
  | VStr (s : string)
  | VTime (t : Z).

#[global] Instance value_eq_dec : EqDecision value.
Proof. solve_decision. Defined.

(** One element of [columns] in [create_table]: the keys ['name'],
    ['type'], ['primary_key'] and ['nullable'] of the dictionary. *)
Record column : Type := Column {
  col_name : string;
  col_type : string;
  col_primary_key : bool;
  col_nullable : bool
}.

Record table : Type := Table {
  tbl_columns : list column;
  tbl_rows : list (gmap string value)
}.

(** The [Table] object that [create_table] builds from its arguments
    and returns: a description of the requested schema, without rows. *)
Record table_handle : Type := TableHandle {
  h_name : string;
  h_columns : list column
}.

(** The value of column [k] in row [r]. *)
Definition col (r : gmap string value) (k : string) : value :=
  default VNull (r !! k).

(** The statement of [get_table_data] and [validate_table_exists]:
    [f"SELECT * FROM {table_name}"].  The name is pasted as it is, without
    quotes, so what the statement reads is for the SQL engine to say: the
    table of that name for an ordinary lower-case identifier, a syntax
    error for a reserved word such as [order], something else again for a
    text with blanks. *)
Definition select_all_text (table_name : string) : string :=
  "SELECT * FROM " ++ table_name.

(** What [Table(table_name, metadata, autoload_with=engine)] is kept as:
    the name and the names of the columns, in their order.  The types
    and flags that reflection reports are those of the dialect and are
    not modelled. *)
Record reflected_table : Type := ReflectedTable {
  rt_name : string;
  rt_column_names : list string
}.

(** [bool(xs)] of a Python list *)
Definition py_bool {A : Type} (xs : list A) : bool :=
  match xs with
  | [] => false
  | _ :: _ => true
  end.

(** ** [backend/database/db_pgsql.py] *)

Module db_pgsql.

(** [metadata.create_all(engine)] issues CREATE TABLE for the tables of
    the metadata that the database does not have yet; the new table has
    no rows.  The [Table] object built from the arguments is returned. *)
Definition create_table (db : gmap string table) (table_name : string)
    (columns : list column) : table_handle * gmap string table :=
  let handle := TableHandle table_name columns in
  match db !! table_name with
  | Some _ => (handle, db)
  | None => (handle, <[table_name := Table columns []]> db)
  end.

(** [table.drop(engine)] issues DROP TABLE, which fails on an absent
    table. *)
Definition drop_table (db : gmap string table) (table_name : string)
  : result unit * gmap string table :=
  match db !! table_name with
  | Some _ => (Ok tt, delete table_name db)
  | None => (Raise (ProgrammingError table_name), db)
  end.

(** [Table(table_name, metadata, autoload_with=engine)] *)
Definition get_table (db : gmap string table) (table_name : string)
  : result reflected_table :=
  match db !! table_name with
  | Some t => Ok (ReflectedTable table_name (map col_name (tbl_columns t)))
  | None => Raise (NoSuchTableError table_name)
  end.

Section raw_sql.

(** [connection.execute(text(statement)).fetchall()]: the answer of the
    SQL engine to the text of a statement, on a database. *)
Variable execute :
  gmap string table -> string -> result (list (gmap string value)).

Definition get_table_data (db : gmap string table) (table_name : string)
  : result (list (gmap string value)) :=
  execute db (select_all_text table_name).

Definition validate_table_exists (db : gmap string table) (table_name : string)
  : result bool :=
  match execute db (select_all_text table_name) with
  | Ok rows => Ok (py_bool rows)
  | Raise e => Raise e
  end.

End raw_sql.

End db_pgsql.

(** ** The world of the ORM: a database, a clock and a key sequence

    [time.time()] is read through an oracle: the [n]-th reading of the
    clock is [w_clock n], and [w_reads] counts the readings made so
    far.  Timestamps are integers (microseconds).

    The keys that the database gives to rows inserted without one come
    from a sequence, read the same way: the [n]-th value drawn is
    [w_sequence n], and [w_drawn] counts the values drawn.  A value that
    was drawn is gone, also when the statement fails, and a row inserted
    with a key of its own does not move the sequence.

    [w_refuses name rows r] is what the database holds against storing
    [r] beside [rows] in table [name] for a reason that is not modelled
    here (a unique or foreign key, a check, a length, a value of the
    wrong type): the exception it raises then, or [None]. *)

Record world : Type := World {
  w_db : gmap string table;
  w_clock : nat -> Z;
  w_reads : nat;
  w_sequence : nat -> Z;
  w_drawn : nat;
  w_refuses :
    string -> list (gmap string value) -> gmap string value -> option exn
}.

Definition set_db (w : world) (db : gmap string table) : world :=
  World db (w_clock w) (w_reads w) (w_sequence w) (w_drawn w)
    (w_refuses w).

(** [datetime.fromtimestamp(time.time())] *)
Definition time_time (w : world) : Z * world :=
  (w_clock w (w_reads w),
   World (w_db w) (w_clock w) (S (w_reads w)) (w_sequence w) (w_drawn w)
     (w_refuses w)).

(** [nextval] of the key sequence *)
Definition nextval (w : world) : Z * world :=
  (w_sequence w (w_drawn w),
   World (w_db w) (w_clock w) (w_reads w) (w_sequence w) (S (w_drawn w))
     (w_refuses w)).

(** ** Model classes and their instances

    A subclass of [BasesqlModel] is known by its [__name__].  The field
    [deleted_at] is declared with
    [sa_column_kwargs={'onupdate': datetime.now()}]: the call
    [datetime.now()] is evaluated when the class body is executed, and
    its value, [cls_defined_at], is what the column keeps as its
    [onupdate] default.  [created_at] and [updated_at] have a
    [default_factory] and no [onupdate].  [cls_columns] are the columns
    the class maps: those of the base and those the subclass declares. *)

Record model_class : Type := ModelClass {
  cls_name : string;
  cls_defined_at : Z;
  cls_columns : list column
}.

(** The [onupdate] defaults of the columns of [cls]. *)
Definition onupdate (cls : model_class) : gmap string value :=
  {[ "deleted_at" := VTime (cls_defined_at cls) ]}.

(** An instance holds its attributes and, once the session has loaded or
    flushed it, the row it was last synchronised with ([committed]); an
    instance that was never persisted has [committed = None]. *)
Record entity : Type := Entity {
  attrs : gmap string value;
  committed : option (gmap string value)
}.

(** [instance.id] *)
Definition entity_id (e : entity) : value := col (attrs e) "id".

(** [setattr(instance, k, v)] *)
Definition set_attr (k : string) (v : value) (e : entity) : entity :=
  Entity (<[k := v]> (attrs e)) (committed e).

(** The instance the session builds from a row. *)
Definition load (r : gmap string value) : entity := Entity r (Some r).

(** A field with a [default_factory] reads the clock when the keyword
    arguments do not give it. *)
Definition default_factory (field : string) (kwargs : gmap string value)
    (w : world) : gmap string value * world :=
  match kwargs !! field with
  | Some _ => (kwargs, w)
  | None => let '(t, w') := time_time w in (<[field := VTime t]> kwargs, w')
  end.

(** [cls( **kwargs )]: the keyword arguments become attributes; the
    defaults of [created_at] and [updated_at] are filled in, in the order
    of the fields; [id] and [deleted_at] stay unset. *)
Definition construct (kwargs : gmap string value) (w : world) : entity * world :=
  let '(a1, w1) := default_factory "created_at" kwargs w in
  let '(a2, w2) := default_factory "updated_at" a1 w1 in
  (Entity a2 None, w2).

(** ** The session

    [filter_by( **kwargs )] keeps the rows that agree with every keyword
    on the column of that name ([column = value], and [column IS NULL]
    for [None]); [first()] takes the first row kept.  [matches] is the
    WHERE clause, for keywords that [known_criteria] has let through. *)

Definition matches (kwargs r : gmap string value) : bool :=
  bool_decide (map_Forall (fun k v => col r k = v) kwargs).

Fixpoint first_match (kwargs : gmap string value)
    (rows : list (gmap string value)) : option (gmap string value) :=
  match rows with
  | [] => None
  | r :: rows' => if matches kwargs r then Some r else first_match kwargs rows'
  end.

(** [filter_by] looks every keyword up on the class and raises
    [InvalidRequestError] for a name that the class does not map, before
    any statement is sent. *)
Definition known_criteria (cls : model_class) (kwargs : gmap string value)
  : bool :=
  bool_decide
    (map_Forall (fun k _ => k ∈ map col_name (cls_columns cls)) kwargs).

(** [session.query(cls).filter_by( **kwargs ).first()] *)
Definition query_filter_by_first (cls : model_class)
    (kwargs : gmap string value) (w : world) : result (option entity) :=
  if known_criteria cls kwargs then
    match w_db w !! __tablename__ (cls_name cls) with
    | Some t => Ok (load <$> first_match kwargs (tbl_rows t))
    | None => Raise (ProgrammingError (__tablename__ (cls_name cls)))
    end
  else Raise (InvalidRequestError (__tablename__ (cls_name cls))).

(** The keys in use. *)
Definition ids (rows : list (gmap string value)) : list value :=
  map (fun r => col r "id") rows.

(** A column with a default of its own ([created_at] and [updated_at],
    through their [default_factory]) is left out of the INSERT when the
    attribute is [None], and takes its default then: the clock is read
    when the statement is made. *)
Definition insert_default (field : string) (a : gmap string value)
    (w : world) : gmap string value * world :=
  match col a field with
  | VNull => let '(t, w') := time_time w in (<[field := VTime t]> a, w')
  | _ => (a, w)
  end.

(** A row without a key takes the next value of the sequence. *)
Definition insert_key (a : gmap string value) (w : world)
  : gmap string value * world :=
  match col a "id" with
  | VNull => let '(k, w') := nextval w in (<["id" := VInt k]> a, w')
  | _ => (a, w)
  end.

(** The row that an INSERT of the attributes [a] asks the database to
    store. *)
Definition prepare_insert (a : gmap string value) (w : world)
  : gmap string value * world :=
  let '(a1, w1) := insert_default "created_at" a w in
  let '(a2, w2) := insert_default "updated_at" a1 w1 in
  insert_key a2 w2.

(** An [Integer] column holds 32 bits. *)
Definition out_of_range (c : column) (r : gmap string value) : bool :=
  String.eqb (col_type c) "Integer" &&
  match col r (col_name c) with
  | VInt n => negb ((-2147483648 <=? n) && (n <=? 2147483647))
  | _ => false
  end.

(** A column declared NOT NULL has no value in [r]. *)
Definition null_in_not_null (c : column) (r : gmap string value) : bool :=
  negb (col_nullable c) && bool_decide (col r (col_name c) = VNull).

(** Every column that [r] gives a value to is a column of the table. *)
Definition columns_exist (t : table) (r : gmap string value) : bool :=
  bool_decide (map_Forall (fun k _ => k ∈ map col_name (tbl_columns t)) r).

(** Why the database refuses to store [r] in table [name] beside the
    rows [others], if it does. *)
Definition row_violation (name : string) (t : table)
    (others : list (gmap string value)) (w : world) (r : gmap string value)
  : option exn :=
  if negb (columns_exist t r) then
    Some (ProgrammingError (name ++ ": column"))
  else if existsb (fun c => out_of_range c r) (tbl_columns t) then
    Some (DataError "integer out of range")
  else if existsb (fun c => null_in_not_null c r) (tbl_columns t) then
    Some (IntegrityError "null value")
  else if bool_decide (col r "id" = VNull) then
    Some (IntegrityError "null key")
  else if bool_decide (col r "id" ∈ ids others) then
    Some (IntegrityError "duplicate key")
  else w_refuses w name others r.

(** INSERT into table [name], whose state is [t]. *)
Definition insert_row (name : string) (a : gmap string value) (t : table)
    (w : world) : result (gmap string value * table) * world :=
  let '(r, w') := prepare_insert a w in
  match row_violation name t (tbl_rows t) w' r with
  | Some e => (Raise e, w')
  | None => (Ok (r, Table (tbl_columns t) (tbl_rows t ++ [r])), w')
  end.

(** The position of the row whose key is [pk]. *)
Fixpoint find_pk (pk : value) (rows : list (gmap string value)) : option nat :=
  match rows with
  | [] => None
  | r :: rows' =>
      if bool_decide (col r "id" = pk) then Some 0%nat
      else S <$> find_pk pk rows'
  end.

(** UPDATE of the row whose key is [pk]: the SET clause is applied; a
    column that has an [onupdate] default and is not in the SET clause is
    set to that default. *)
Definition sql_update (cls : model_class) (pk : value)
    (set_clause : gmap string value) (t : table) (w : world)
  : result (gmap string value * table) :=
  match find_pk pk (tbl_rows t) with
  | None => Raise StaleDataError
  | Some i =>
      match tbl_rows t !! i with
      | None => Raise StaleDataError
      | Some r =>
          let r' := (set_clause ∪ onupdate cls) ∪ r in
          let rest := delete i (tbl_rows t) in
          match row_violation (__tablename__ (cls_name cls)) t rest w r' with
          | Some e => Raise e
          | None => Ok (r', Table (tbl_columns t) (<[i := r']> (tbl_rows t)))
          end
      end
  end.

(** The attributes of an instance that differ from the row it was
    synchronised with: the SET clause of its UPDATE. *)
Definition changed (a r : gmap string value) : gmap string value :=
  filter (fun kv => col r kv.1 ≠ kv.2) a.

(** [session.add(instance); session.commit()]: an instance that was
    never persisted is inserted; a persisted instance with changed
    attributes is updated; a persisted instance without changes causes no
    statement.  Either the statement and its commit take effect, or the
    exception leaves the database as it was (the readings of the clock
    and of the sequence stay made).  After the commit the instance shows
    the stored row. *)
Definition add_commit (cls : model_class) (instance : entity) (w : world)
  : result entity * world :=
  let name := __tablename__ (cls_name cls) in
  match w_db w !! name with
  | None => (Raise (ProgrammingError name), w)
  | Some t =>
      match committed instance with
      | None =>
          match insert_row name (attrs instance) t w with
          | (Ok (r, t'), w') =>
              (Ok (load r), set_db w' (<[name := t']> (w_db w)))
          | (Raise e, w') => (Raise e, w')
          end
      | Some r0 =>
          let set_clause := changed (attrs instance) r0 in
          if bool_decide (set_clause = ∅) then (Ok instance, w)
          else
            match sql_update cls (col r0 "id") set_clause t w with
            | Ok (r, t') => (Ok (load r), set_db w (<[name := t']> (w_db w)))
            | Raise e => (Raise e, w)
            end
      end
  end.

(** ** pandas, the dialect and pydantic, as [base.py] uses them *)

(** A [DataFrame]: named columns and the records under them. *)
Record dataframe : Type := DataFrame {
  df_columns : list string;
  df_records : list (gmap string value)
}.

(** What a caller hands over as [engine]: the [Engine] that
    [create_engine] made, or a [Connection] opened from it.  Both lead to
    one database. *)
Inductive connectable : Type :=
  | EngineOf (db : gmap string table)
  | ConnectionOf (db : gmap string table).

Definition database_of (c : connectable) : gmap string table :=
  match c with
  | EngineOf db => db
  | ConnectionOf db => db
  end.

(** [pd.read_sql_table(table_name, con)] takes an engine or a
    connection, loads the whole table and raises [ValueError] when the
    database has no such table. *)
Definition read_sql_table (table_name : string) (con : connectable)
  : result dataframe :=
  match database_of con !! table_name with
  | Some t => Ok (DataFrame (map col_name (tbl_columns t)) (tbl_rows t))
  | None => Raise (ValueError ("Table " ++ table_name ++ " not found"))
  end.

(** [dialect.has_table(connection, table_name)]: the schema inspection
    of the dialect.  The gateway imports [Engine] and [Row] from
    [sqlalchemy] itself, which is SQLAlchemy 2; there every dialect first
    checks that its argument is a [Connection] and raises
    [ArgumentError] for anything else, an [Engine] included. *)
Definition has_table (connection : connectable) (table_name : string)
  : result bool :=
  match connection with
  | ConnectionOf db => Ok (bool_decide (is_Some (db !! table_name)))
  | EngineOf _ =>
      Raise (ArgumentError
        "The argument passed to Dialect.has_table() should be a Connection, got Engine")
  end.

(** [df.to_dict(orient='records')] *)
Definition to_dict (df : dataframe) : list (gmap string value) := df_records df.

(** The fields of [Base], in the order of their declaration. *)
Definition Base_fields : list string :=
  ["id"; "created_at"; "updated_at"; "updated_by"; "deleted_at"; "deleted_by"].

(** A pydantic model class, known by the names of its fields. *)
Record validation_model : Type := ValidationModel {
  vm_fields : list string
}.

(** The creation of a model class.  [model_validate], [model_config] as
    a [SettingsConfigDict] and [pydantic_settings] belong to version 2 of
    pydantic, whose metaclass refuses a class body that annotates
    [__root__]. *)
Definition new_model (base_fields annotations : list string)
  : result validation_model :=
  if bool_decide ("__root__" ∈ annotations)
  then Raise (TypeError
         "To define root models, use `pydantic.RootModel` rather than a field called '__root__'")
  else Ok (ValidationModel (base_fields ++ annotations)).

(** [str(e)], for the message that is logged. *)
Definition exn_str (e : exn) : string :=
  match e with
  | ProgrammingError msg => "relation " ++ msg ++ " does not exist"
  | NoSuchTableError name => name
  | IntegrityError msg => msg
  | DataError msg => msg
  | InvalidRequestError msg => msg
  | StaleDataError => "UPDATE statement matched no row"
  | ArgumentError msg => msg
  | ValueError msg => msg
  | TypeError msg => msg
  | ValidationError errors => "validation error"
  end.

(** What a call of [validate_data] hands back when it returns: the
    validated model, or the exception it caught. *)
Inductive outcome : Type :=
  | Validated (instances : list entity)
  | Returned (e : exn).

(** ** [backend/models/base.py], class [BasesqlModel] *)

Module BasesqlModel.

Definition get_or_create (cls : model_class) (kwargs : gmap string value)
    (session : world) : result (entity * bool) * world :=
  match query_filter_by_first cls kwargs session with
  | Raise e => (Raise e, session)
  | Ok (Some instance) => (Ok (instance, false), session)
  | Ok None =>
      let '(instance, session1) := construct kwargs session in
      match add_commit cls instance session1 with
      | (Ok instance', session2) => (Ok (instance', true), session2)
      | (Raise e, session2) => (Raise e, session2)
      end
  end.

Definition save (cls : model_class) (self : entity) (session : world)
  : result entity * world :=
  add_commit cls self session.

Definition get (cls : model_class) (kwargs : gmap string value)
    (session : world) : result (option entity) :=
  query_filter_by_first cls kwargs session.

Definition validate_table_exists (cls : model_class)
    (engine : connectable) (table_name : string) : result bool :=
  has_table engine table_name.

Definition get_table (cls : model_class) (engine : connectable)
    (table_name : string) : result dataframe :=
  read_sql_table table_name engine.

Section validate_data.

(** [DataValidationModel.model_validate], whatever it does with the
    records once the class exists. *)
Variable model_validate :
  validation_model -> list (gmap string value) -> result (list entity).

(** The [try] block with its handler: the exception is logged at
    level [error] and returned. *)
Definition validate_records (DataValidationModel : validation_model)
    (df : dataframe) (log : list (string * string))
  : outcome * list (string * string) :=
  match model_validate DataValidationModel (to_dict df) with
  | Ok instances => (Validated instances, log)
  | Raise e => (Returned e, (log ++ [("error", ("Error: " ++ exn_str e)%string)])%list)
  end.

(** The class statement comes first, outside the [try] block. *)
Definition validate_data (cls : model_class) (df : dataframe)
    (log : list (string * string))
  : result outcome * list (string * string) :=
  match new_model Base_fields ["__root__"] with
  | Raise e => (Raise e, log)
  | Ok DataValidationModel =>
      let '(out, log') := validate_records DataValidationModel df log in
      (Ok out, log')
  end.

End validate_data.

Definition get_table_data (cls : model_class) (engine : connectable)
    (table_name : string) : result dataframe :=
  read_sql_table table_name engine.

End BasesqlModel.

(** What a caller sees of a call of [get_or_create] or [save]: the flag
    [created], the [id] of the returned instance and a column of it; [None]
    when the call raised. *)
Definition created_flag (x : result (entity * bool) * world) : option bool :=
  match x.1 with
  | Ok (_, created) => Some created
  | Raise _ => None
  end.

Definition created_id (x : result (entity * bool) * world) : option value :=
  match x.1 with
  | Ok (instance, _) => Some (entity_id instance)
  | Raise _ => None
  end.

Definition saved_col (k : string) (x : result entity * world) : option value :=
  match x.1 with
  | Ok instance => Some (col (attrs instance) k)
  | Raise _ => None
  end.

(** The rows of table [name] in the database of [w]. *)
Definition stored_rows (name : string) (w : world) : list (gmap string value) :=
  match w_db w !! name with
  | Some t => tbl_rows t
  | None => []
  end.

(** Two calls of [get_or_create] in a row: the flag and the [id] of
    each, and the number of rows the table has afterwards. *)
Definition called_twice (cls : model_class) (kwargs : gmap string value)
    (w : world)
  : (option bool * option value) * (option bool * option value) * nat :=
  let first := BasesqlModel.get_or_create cls kwargs w in
  let second := BasesqlModel.get_or_create cls kwargs first.2 in
  ((created_flag first, created_id first),
   (created_flag second, created_id second),
   length (stored_rows (__tablename__ (cls_name cls)) second.2)).

(** ** A small database, for the examples *)

Module Examples.

(** A model class [Widget], defined at time 50. *)
Definition widget_columns : list column :=
  [Column "id" "Integer" true false; Column "name" "String" false false;
   Column "created_at" "DateTime" false false;
   Column "updated_at" "DateTime" false false;
   Column "deleted_at" "DateTime" false true].

Definition Widget : model_class := ModelClass "Widget" 50 widget_columns.

Definition row_x : gmap string value :=
  {[ "id" := VInt 1; "name" := VStr "x";
     "created_at" := VTime 100; "updated_at" := VTime 100 ]}.

Definition empty_db : gmap string table := {[ "widget" := Table widget_columns [] ]}.

Definition db_x : gmap string table := {[ "widget" := Table widget_columns [row_x] ]}.

(** The clock shows 1000, 1001, ... *)
Definition clock (n : nat) : Z := 1000 + Z.of_nat n.

(** A sequence that gives [k], [k + 1], ... *)
Definition sequence_from (k : Z) (n : nat) : Z := k + Z.of_nat n.

(** A database with no constraint beyond the modelled ones. *)
Definition no_constraints (name : string) (rows : list (gmap string value))
    (r : gmap string value) : option exn := None.

Definition empty_world : world :=
  World empty_db clock 0 (sequence_from 1) 0 no_constraints.

(** The stored widget took the key 1 from the sequence. *)
Definition world_x : world :=
  World db_x clock 0 (sequence_from 2) 0 no_constraints.

(** The stored widget was inserted with a key of its own: the sequence
    has not moved. *)
Definition world_x_own_key : world :=
  World db_x clock 0 (sequence_from 1) 0 no_constraints.

(** The stored widget, loaded and renamed by the caller. *)
Definition renamed : entity := set_attr "name" (VStr "y") (load row_x).

(** The stored widget, loaded and marked as deleted at time 900 by the
    caller. *)
Definition deleted_by_hand : entity := set_attr "deleted_at" (VTime 900) (load row_x).

(** A widget that an earlier update has marked, loaded, renamed and
    restored by the caller. *)
Definition row_marked : gmap string value := <["deleted_at" := VTime 50]> row_x.

Definition world_marked : world :=
  World {[ "widget" := Table widget_columns [row_marked] ]} clock 0
    (sequence_from 2) 0 no_constraints.

Definition restored : entity :=
  set_attr "deleted_at" VNull (set_attr "name" (VStr "y") (load row_marked)).

End Examples.

(** ** More of [base.py]: [primary_keys] *)

(** [primary_keys] first collects the names of the key columns of the
    mapper and then overwrites the variable with
    [cls.__table__.columns.keys()], which it returns.  [columns] are the
    columns of the table of [cls]. *)
Definition primary_keys (columns : list column) : list string :=
  let primary_keys := map col_name (List.filter col_primary_key columns) in
  let primary_keys := map col_name columns in
  primary_keys.

(** The names of the key columns, the list the first assignment
    computes. *)
Definition key_names (columns : list column) : list string :=
  map col_name (List.filter col_primary_key columns).

(** A name with its underscores taken out, to compare a type name with
    its table name. *)
Fixpoint remove_underscores (s : string) : string :=
  match s with
  | EmptyString => EmptyString
  | String c rest =>
      if bool_decide (c = "_"%char) then remove_underscores rest
      else String c (remove_underscores rest)
  end.

(** The same on code points. *)
Definition without_underscores (s : list N) : list N :=
  List.filter (fun c => negb (c =? UniStr.underscore)%N) s.

(** ** [backend/common/log.py]

    [logging.getLogger(__name__)] is one logger for the whole process:
    every [BetrLogger] works on it.  The state of [logging] is the level
    of that logger, its handlers in the order they were added, and
    what has been written so far, to which stream.  The root logger has
    its defaults: level [WARNING], no handler. *)

Module BetrLogger.

Inductive stream : Type :=
  | FileStream (path : string)   (* a [FileHandler] on this file *)
  | ConsoleStream                (* the [RichHandler] *)
  | StderrStream.                (* [logging.lastResort] *)

Definition NOTSET : nat := 0.
Definition DEBUG : nat := 10.
Definition INFO : nat := 20.
Definition WARNING : nat := 30.
Definition ERROR : nat := 40.
Definition CRITICAL : nat := 50.

Record handler : Type := Handler {
  hd_stream : stream;
  hd_level : nat
}.

Record log_record : Type := LogRecord {
  rec_levelno : nat;
  rec_msg : string;
  rec_exc_info : bool
}.

Record logging : Type := Logging {
  lg_level : nat;
  lg_handlers : list handler;
  lg_written : list (stream * log_record)
}.

(** The process before any [setup_logger]. *)
Definition fresh : logging := Logging NOTSET [] [].

(** [self.log_err_file] and [self.log_std_out_file], which [__init__]
    reads from [settings]. *)
Record betr_logger : Type := BetrLoggerOf {
  log_err_file : string;
  log_std_out_file : string
}.

(** [Logger.getEffectiveLevel]: a logger without a level takes the
    level of the root logger. *)
Definition getEffectiveLevel (st : logging) : nat :=
  if (lg_level st =? NOTSET)%nat then WARNING else lg_level st.

(** [Logger.callHandlers]: every handler whose level admits the record
    handles it; where the logger has no handler at all, the handler of
    last resort writes records from [WARNING] up to [sys.stderr]. *)
Definition callHandlers (r : log_record) (st : logging)
  : list (stream * log_record) :=
  match lg_handlers st with
  | [] => if (WARNING <=? rec_levelno r)%nat then [(StderrStream, r)] else []
  | hs =>
      map (fun h => (hd_stream h, r))
        (List.filter (fun h => (hd_level h <=? rec_levelno r)%nat) hs)
  end.

(** [Logger.log(levelno, msg, exc_info=...)] *)
Definition logger_log (levelno : nat) (msg : string) (exc_info : bool)
    (st : logging) : logging :=
  if (getEffectiveLevel st <=? levelno)%nat
  then Logging (lg_level st) (lg_handlers st)
         (lg_written st ++ callHandlers (LogRecord levelno msg exc_info) st)
  else st.

Definition debug := logger_log DEBUG.
Definition info := logger_log INFO.
Definition warning := logger_log WARNING.
Definition error := logger_log ERROR.
Definition critical := logger_log CRITICAL.

(** [setup_logger]: the level of the logger becomes [DEBUG]; a handler
    on the standard-output file at [DEBUG], one on the error file at
    [ERROR] and the console handler at [DEBUG] are made and added, in
    this order. *)
Definition setup_logger (self : betr_logger) (st : logging) : logging :=
  let file_handler := Handler (FileStream (log_std_out_file self)) DEBUG in
  let error_file_handler := Handler (FileStream (log_err_file self)) ERROR in
  let console_handler := Handler ConsoleStream DEBUG in
  Logging DEBUG
    (lg_handlers st ++ [file_handler; error_file_handler; console_handler])
    (lg_written st).

(** The methods take [level] as a string, with a default that is used
    when the caller gives none. *)
Definition log (self : betr_logger) (message : string)
    (level : option string) (st : logging) : logging :=
  let level := default "info" level in
  if String.eqb level "info" then info message false st
  else if String.eqb level "warning" then warning message false st
  else if String.eqb level "error" then error message false st
  else if String.eqb level "critical" then critical message false st
  else debug message false st.

Definition log_traceback (self : betr_logger) (message : string)
    (level : option string) (st : logging) : logging :=
  let level := default "error" level in
  if String.eqb level "info" then info message true st
  else if String.eqb level "warning" then warning message true st
  else if String.eqb level "error" then error message true st
  else if String.eqb level "critical" then critical message true st
  else debug message true st.

Definition log_critical (self : betr_logger) (message : string)
    (level : option string) (st : logging) : logging :=
  let level := default "critical" level in
  if String.eqb level "info" then info message false st
  else if String.eqb level "warning" then warning message false st
  else if String.eqb level "error" then error message false st
  else if String.eqb level "critical" then critical message false st
  else debug message false st.

Definition log_debug (self : betr_logger) (message : string)
    (level : option string) (st : logging) : logging :=
  let level := default "debug" level in
  if String.eqb level "info" then info message false st
  else if String.eqb level "warning" then warning message false st
  else if String.eqb level "error" then error message false st
  else if String.eqb level "critical" then critical message false st
  else debug message false st.

Definition log_info (self : betr_logger) (message : string)
    (level : option string) (st : logging) : logging :=
  let level := default "info" level in
  if String.eqb level "info" then info message false st
  else if String.eqb level "warning" then warning message false st
  else if String.eqb level "error" then error message false st
  else if String.eqb level "critical" then critical message false st
  else debug message false st.

Definition log_warning (self : betr_logger) (message : string)
    (level : option string) (st : logging) : logging :=
  let level := default "warning" level in
  if String.eqb level "info" then info message false st
  else if String.eqb level "warning" then warning message false st
  else if String.eqb level "error" then error message false st
  else if String.eqb level "critical" then critical message false st
  else debug message false st.

Definition log_error (self : betr_logger) (message : string)
    (level : option string) (st : logging) : logging :=
  let level := default "error" level in
  if String.eqb level "info" then info message false st
  else if String.eqb level "warning" then warning message false st
  else if String.eqb level "error" then error message false st
  else if String.eqb level "critical" then critical message false st
  else debug message false st.

(** The level a method logs at, for the string it is given. *)
Definition levelno_of (level : string) : nat :=
  if String.eqb level "info" then INFO
  else if String.eqb level "warning" then WARNING
  else if String.eqb level "error" then ERROR
  else if String.eqb level "critical" then CRITICAL
  else DEBUG.

(** [n] calls of [setup_logger], as made by the [n] modules that run
    [BetrLogger().setup_logger()] when they are imported. *)
Fixpoint setup_times (self : betr_logger) (n : nat) (st : logging) : logging :=
  match n with
  | O => st
  | S n' => setup_logger self (setup_times self n' st)
  end.

(** What a call wrote: the records added to [lg_written]. *)
Definition written_by (before after : logging) : list (stream * log_record) :=
  drop (length (lg_written before)) (lg_written after).

End BetrLogger.

(** ** [backend/core/path_config.py]

    A resolved path is the list of its components below the root.
    [parents p i] is [Path.parents[i]]: [None] stands for the
    [IndexError] of an index past the root. *)

Module path_config.

Definition parents (p : list string) (i : nat) : option (list string) :=
  if decide (i < length p)%nat then Some (take (length p - S i) p) else None.

(** [Path(base, *parts)] *)
Definition Path (base parts : list string) : list string := (base ++ parts)%list.

Record paths : Type := Paths {
  ROOT_DIR : list string;
  BACKEND_DIR : list string;
  VERSIONS : list string;
  LOGPATH : list string;
  DATA_PATH : list string;
  NBA_DATA_PATH : list string;
  NHL_DATA_PATH : list string;
  MLB_DATA_PATH : list string;
  NFL_DATA_PATH : list string;
  UFC_DATA_PATH : list string;
  DB_PATH : list string;
  API_PATH : list string;
  CONFIG_PATH : list string;
  MODELS_PATH : list string;
  SCRIPTS_PATH : list string;
  UTILS_PATH : list string
}.

(** The body of the module, for [file] the resolved [__file__]. *)
Definition load (file : list string) : option paths :=
  match parents file 3 with
  | None => None
  | Some root_dir =>
      match parents file 1 with
      | None => None
      | Some backend_dir =>
          Some (Paths root_dir backend_dir
                  (Path backend_dir ["alembic"; "versions"])
                  (Path backend_dir ["logs"])
                  (Path backend_dir ["data"])
                  (Path backend_dir ["data"; "nba"])
                  (Path backend_dir ["data"; "nhl"])
                  (Path backend_dir ["data"; "mlb"])
                  (Path backend_dir ["data"; "nfl"])
                  (Path backend_dir ["data"; "ufc"])
                  (Path backend_dir ["database"])
                  (Path backend_dir ["api"])
                  (Path backend_dir ["core"])
                  (Path backend_dir ["models"])
                  (Path backend_dir ["scripts"])
                  (Path backend_dir ["utils"]))
      end
  end.

End path_config.

(** * Properties *)

(** ** Table names *)

Section table_names.
Import PyStr.

Lemma lower_char_not_upper (c : ascii) : is_upper (lower_char c) = false.
Proof. destruct c as [[] [] [] [] [] [] [] []]; reflexivity. Qed.

Lemma upper_not_lower_or_digit (c : ascii) :
  is_upper c = true -> is_lower_or_digit c = false.
Proof. destruct c as [[] [] [] [] [] [] [] []]; intros H; solve [reflexivity | discriminate H]. Qed.

Lemma lower_char_fixed (c : ascii) : is_upper c = false -> lower_char c = c.
Proof. unfold lower_char. intros ->. reflexivity. Qed.

(** After a capital at the head the rule of the specification adds
    nothing. *)
Lemma insert_underscores_upper (b : ascii) (rest : string) :
  is_upper b = true ->
  insert_underscores (String b rest) = String b (insert_underscores rest).
Proof.
  intros Hb. simpl. destruct rest as [|c rest']; [reflexivity|].
  rewrite (upper_not_lower_or_digit b Hb). reflexivity.
Qed.

(** The scan of [re.sub] and the rule of the specification agree: a
    match leaves a capital behind, which cannot start the next match. *)
Lemma re_sub_camel_insert_underscores (s : string) :
  re_sub_camel s = insert_underscores s.
Proof.
  remember (String.length s) as n eqn:Hn.
  revert s Hn. induction n as [n IH] using lt_wf_ind. intros s Hn.
  destruct s as [|a [|b rest']]; [reflexivity | reflexivity |].
  change (re_sub_camel (String a (String b rest'))) with
    (if is_lower_or_digit a && is_upper b
     then String a (String "_" (String b (re_sub_camel rest')))
     else String a (re_sub_camel (String b rest'))).
  change (insert_underscores (String a (String b rest'))) with
    (if is_lower_or_digit a && is_upper b
     then String a (String "_" (insert_underscores (String b rest')))
     else String a (insert_underscores (String b rest'))).
  destruct (is_lower_or_digit a && is_upper b) eqn:Hab.
  - apply andb_true_iff in Hab as [_ Hb].
    rewrite (insert_underscores_upper b rest' Hb).
    rewrite (IH (String.length rest')); [reflexivity | | reflexivity].
    subst n. cbn [String.length]. lia.
  - f_equal. apply (IH (String.length (String b rest'))); [|reflexivity].
    subst n. cbn [String.length]. lia.
Qed.

Lemma insert_underscores_no_upper (s : string) :
  no_upper s = true -> insert_underscores s = s.
Proof.
  induction s as [|a rest IH]; [reflexivity|].
  cbn [no_upper]. intros [_ Hrest]%andb_true_iff.
  specialize (IH Hrest).
  destruct rest as [|b rest']; [reflexivity|].
  cbn [no_upper] in Hrest. apply andb_true_iff in Hrest as [Hb _].
  apply negb_true_iff in Hb.
  change (insert_underscores (String a (String b rest'))) with
    (if is_lower_or_digit a && is_upper b
     then String a (String "_" (insert_underscores (String b rest')))
     else String a (insert_underscores (String b rest'))).
  rewrite Hb, andb_false_r, IH. reflexivity.
Qed.

Lemma no_upper_lower (s : string) : no_upper (lower s) = true.
Proof.
  induction s as [|c rest IH]; [reflexivity|].
  cbn [lower no_upper]. rewrite lower_char_not_upper, IH. reflexivity.
Qed.

Lemma lower_no_upper (s : string) : no_upper s = true -> lower s = s.
Proof.
  induction s as [|c rest IH]; [reflexivity|].
  cbn [lower no_upper]. intros [Hc Hrest]%andb_true_iff.
  apply negb_true_iff in Hc.
  rewrite (lower_char_fixed c Hc), (IH Hrest). reflexivity.
Qed.

End table_names.

(** ** Table names beyond ASCII *)

Section unicode_names.
Import UniStr.

Variable U : unicode.
Hypothesis HU : faithful U.





Lemma codes_cons (c : ascii) (s : string) :
  codes (String c s) = N_of_ascii c :: codes s.
Proof. reflexivity. Qed.

Lemma is_upper_code (c : ascii) : is_upper (N_of_ascii c) = PyStr.is_upper c.
Proof. reflexivity. Qed.

Lemma is_lower_or_digit_code (c : ascii) :
  (N_of_ascii c <? 128)%N = true ->
  is_lower_or_digit U (N_of_ascii c) = PyStr.is_lower_or_digit c.
Proof.
  intros Hc. unfold is_lower_or_digit. by rewrite (decimal_ascii U HU _ Hc).
Qed.

(** On an ASCII name the scan over code points is the scan over
    characters. *)
Lemma re_sub_camel_codes (s : string) :
  ascii_only (codes s) = true ->
  re_sub_camel U (codes s) = codes (PyStr.re_sub_camel s) /\
  ascii_only (codes (PyStr.re_sub_camel s)) = true.
Proof.
  remember (String.length s) as n eqn:Hn.
  revert s Hn. induction n as [n IH] using lt_wf_ind. intros s Hn.
  destruct s as [|a [|b rest']]; [done | done |].
  rewrite !codes_cons. cbn [ascii_only forallb].
  intros [Ha [Hb Hrest]%andb_true_iff]%andb_true_iff.
  fold (ascii_only (codes rest')) in Hrest.
  change (PyStr.re_sub_camel (String a (String b rest'))) with
    (if PyStr.is_lower_or_digit a && PyStr.is_upper b
     then String a (String "_" (String b (PyStr.re_sub_camel rest')))
     else String a (PyStr.re_sub_camel (String b rest'))).
  change (re_sub_camel U (N_of_ascii a :: N_of_ascii b :: codes rest')) with
    (if is_lower_or_digit U (N_of_ascii a) && is_upper (N_of_ascii b)
     then N_of_ascii a :: underscore :: N_of_ascii b
            :: re_sub_camel U (codes rest')
     else N_of_ascii a :: re_sub_camel U (N_of_ascii b :: codes rest')).
  rewrite (is_lower_or_digit_code a Ha), is_upper_code.
  destruct (PyStr.is_lower_or_digit a && PyStr.is_upper b).
  - destruct (IH (String.length rest')) with (s := rest') as [IH1 IH2];
      [subst n; cbn [String.length]; lia | reflexivity | exact Hrest |].
    rewrite IH1, !codes_cons. split; [reflexivity|].
    cbn [ascii_only forallb]. fold (ascii_only (codes (PyStr.re_sub_camel rest'))).
    by rewrite Ha, Hb, IH2.
  - destruct (IH (String.length (String b rest'))) with (s := String b rest')
      as [IH1 IH2];
      [subst n; cbn [String.length]; lia | reflexivity | |].
    { rewrite codes_cons. cbn [ascii_only forallb]. by rewrite Hb. }
    rewrite codes_cons in IH1. rewrite IH1, codes_cons. split; [reflexivity|].
    cbn [ascii_only forallb].
    fold (ascii_only (codes (PyStr.re_sub_camel (String b rest')))).
    by rewrite Ha, IH2.
Qed.

Lemma ascii_lower_code (c : ascii) :
  ascii_lower (N_of_ascii c) = N_of_ascii (PyStr.lower_char c).
Proof. destruct c as [[] [] [] [] [] [] [] []]; reflexivity. Qed.

Lemma lower_codes (s : string) :
  map ascii_lower (codes s) = codes (PyStr.lower s).
Proof.
  induction s as [|c rest IH]; [reflexivity|].
  cbn [PyStr.lower]. rewrite !codes_cons. cbn [map].
  by rewrite ascii_lower_code, IH.
Qed.

End unicode_names.

(** On an ASCII name the table name over code points is the one over
    characters. *)
Lemma tablename_codes (U : UniStr.unicode) (HU : UniStr.faithful U)
    (name : string) :
  UniStr.ascii_only (UniStr.codes name) = true ->
  UniStr.__tablename__ U (UniStr.codes name)
  = UniStr.codes (__tablename__ name).
Proof.
  intros Hname. unfold UniStr.__tablename__, __tablename__.
  destruct (re_sub_camel_codes U HU name Hname) as [-> Hascii].
  rewrite (UniStr.lower_ascii U HU _ Hascii). apply lower_codes.
Qed.

(** The part of the database that the examples use is as the whole
    is. *)
Lemma sample_faithful : UniStr.faithful UniStr.sample.
Proof.
  split.
  - intros s. cbn [UniStr.sample UniStr.str_lower].
    induction s as [|c s IH]; [reflexivity|].
    cbn [UniStr.ascii_only forallb flat_map map].
    intros [Hc Hs]%andb_true_iff. rewrite (IH Hs).
    unfold UniStr.sample_lower, UniStr.ascii_lower.
    destruct (UniStr.is_upper c); [reflexivity|].
    replace (c =? 201)%N with false by lia.
    replace (c =? 304)%N with false by lia. reflexivity.
  - intros c Hc. cbn [UniStr.sample UniStr.is_decimal]. lia.
  - intros [|c s]; [discriminate|].
    cbn [UniStr.sample UniStr.str_lower flat_map head].
    unfold UniStr.sample_lower, UniStr.underscore.
    destruct (UniStr.is_upper c) eqn:Hc.
    { unfold UniStr.is_upper in Hc. cbn [app head]. intros [= H]. lia. }
    destruct (c =? 201)%N; [discriminate|].
    destruct (c =? 304)%N; [discriminate|].
    cbn [app head]. by intros [= ->].
Qed.




(** ** Existence of tables, and bulk reads *)

(** Through a [Connection], [BasesqlModel.validate_table_exists] is the
    schema inspection: true exactly when the database has the table,
    whatever rows it holds, hence true right after [create_table] of
    that name, where a table made by the call is still empty, and false
    after [drop_table] of that name. *)
Lemma validate_table_exists_connection (cls : model_class)
    (db : gmap string table) (table_name : string) :
  BasesqlModel.validate_table_exists cls (ConnectionOf db) table_name
  = Ok (bool_decide (is_Some (db !! table_name))) /\
  (forall columns : list column,
     let db' := (db_pgsql.create_table db table_name columns).2 in
     BasesqlModel.validate_table_exists cls (ConnectionOf db') table_name
     = Ok true /\
     (db !! table_name = None -> db' !! table_name = Some (Table columns []))) /\
  BasesqlModel.validate_table_exists cls
    (ConnectionOf (db_pgsql.drop_table db table_name).2) table_name
  = Ok false.
Proof.
  unfold BasesqlModel.validate_table_exists, has_table.
  split; [reflexivity|]. split; [intros columns; split|].
  - f_equal. apply bool_decide_eq_true. unfold db_pgsql.create_table.
    destruct (db !! table_name) as [t|] eqn:Hdb; cbn [snd].
    + rewrite Hdb. eauto.
    + rewrite lookup_insert_eq. eauto.
  - intros Hnone. unfold db_pgsql.create_table. rewrite Hnone. cbn [snd].
    apply lookup_insert_eq.
  - f_equal. apply bool_decide_eq_false. unfold db_pgsql.drop_table.
    destruct (db !! table_name) as [t|] eqn:Hdb; cbn [snd].
    + rewrite lookup_delete_eq. intros [t' Ht']. discriminate Ht'.
    + rewrite Hdb. intros [t' Ht']. discriminate Ht'.
Qed.

(** C5, on the engine that the method is handed: the engine itself goes
    to [dialect.has_table], where the functions of the gateway open a
    connection first, and the call raises [ArgumentError] whether or not
    the database has the table; so it does right after [create_table],
    and after [drop_table]. *)
Theorem C5_validate_table_exists_engine (cls : model_class)
    (db : gmap string table) (table_name : string) (columns : list column) :
  let refused : result bool :=
    Raise (ArgumentError
      "The argument passed to Dialect.has_table() should be a Connection, got Engine") in
  BasesqlModel.validate_table_exists cls (EngineOf db) table_name = refused /\
  BasesqlModel.validate_table_exists cls
    (EngineOf (db_pgsql.create_table db table_name columns).2) table_name
  = refused /\
  BasesqlModel.validate_table_exists cls
    (EngineOf (db_pgsql.drop_table db table_name).2) table_name
  = refused.
Proof. cbv zeta. split; [|split]; reflexivity. Qed.

(** C6: whatever the SQL engine makes of the statement, the check of
    the gateway is [True] exactly when [get_table_data] of the same name
    returns at least one row; it is [False] exactly when [get_table_data]
    returns no row, and it raises exactly when [get_table_data] raises,
    with the same exception.  This holds for every state of the database,
    those in which the table exists included. *)
Theorem C6_validate_table_exists_has_rows
    (execute : gmap string table -> string -> result (list (gmap string value)))
    (db : gmap string table) (table_name : string) :
  (db_pgsql.validate_table_exists execute db table_name = Ok true <->
   exists rows : list (gmap string value),
     db_pgsql.get_table_data execute db table_name = Ok rows /\
     (1 <= length rows)%nat) /\
  (db_pgsql.validate_table_exists execute db table_name = Ok false <->
   db_pgsql.get_table_data execute db table_name = Ok []) /\
  (forall e : exn,
     db_pgsql.validate_table_exists execute db table_name = Raise e <->
     db_pgsql.get_table_data execute db table_name = Raise e).
Proof.
  unfold db_pgsql.validate_table_exists, db_pgsql.get_table_data.
  destruct (execute db (select_all_text table_name)) as [[|r rows]|e0];
    cbn [py_bool].
  - split; [|split].
    + split; [discriminate|]. intros (rows & [= <-] & Hlen). cbn in Hlen. lia.
    + done.
    + intros e. split; discriminate.
  - split; [|split].
    + split; [|done]. intros _. exists (r :: rows). split; [done|]. cbn. lia.
    + split; discriminate.
    + intros e. split; discriminate.
  - split; [|split].
    + split; [discriminate|]. intros (rows & Hrows & _). discriminate Hrows.
    + split; discriminate.
    + intros e. split; intros [= <-]; reflexivity.
Qed.

(** C10: [BasesqlModel.get_table] and [BasesqlModel.get_table_data] are
    the same read: for every engine and table name they return the same
    frame, or raise the same exception. *)
Theorem C10_get_table_get_table_data (cls : model_class)
    (engine : connectable) (table_name : string) :
  BasesqlModel.get_table cls engine table_name
  = BasesqlModel.get_table_data cls engine table_name.
Proof.
  unfold BasesqlModel.get_table, BasesqlModel.get_table_data. reflexivity.
Qed.

(** ** The session: lookups and inserts *)

Lemma matches_spec (kwargs r : gmap string value) :
  matches kwargs r = true <->
  forall (k : string) (v : value), kwargs !! k = Some v -> col r k = v.
Proof. unfold matches. rewrite bool_decide_eq_true. reflexivity. Qed.

(** Rows that do not match are passed over. *)
Lemma first_match_app (kwargs : gmap string value)
    (before rows : list (gmap string value)) :
  Forall (fun r => matches kwargs r = false) before ->
  first_match kwargs (before ++ rows) = first_match kwargs rows.
Proof.
  induction 1 as [|r before Hr _ IH]; [reflexivity|].
  cbn [app first_match]. rewrite Hr. exact IH.
Qed.

Lemma first_match_none (kwargs : gmap string value)
    (rows : list (gmap string value)) :
  first_match kwargs rows = None <->
  Forall (fun r => matches kwargs r = false) rows.
Proof.
  induction rows as [|r rows IH]; cbn [first_match].
  - split; [constructor | reflexivity].
  - destruct (matches kwargs r) eqn:Hr.
    + split; [discriminate|]. intros H. inversion H; congruence.
    + rewrite IH. split; [by constructor | by inversion 1].
Qed.

(** The first match is the first row of the table that agrees with the
    criteria. *)
Lemma first_match_some (kwargs : gmap string value)
    (rows : list (gmap string value)) (r : gmap string value) :
  first_match kwargs rows = Some r <->
  exists before after : list (gmap string value),
    rows = (before ++ r :: after)%list /\ matches kwargs r = true /\
    Forall (fun r' => matches kwargs r' = false) before.
Proof.
  split.
  - induction rows as [|r0 rows IH]; cbn [first_match]; [discriminate|].
    destruct (matches kwargs r0) eqn:Hr0.
    + intros [= ->]. exists [], rows. by repeat split.
    + intros (before & after & -> & Hr & Hbefore)%IH.
      exists (r0 :: before), after. repeat split; [done|by constructor].
  - intros (before & after & -> & Hr & Hbefore).
    rewrite first_match_app by done. cbn [first_match]. by rewrite Hr.
Qed.

(** What [cls( **kwargs )] builds: the keyword arguments, and the two
    defaults; the database is not touched. *)
Lemma construct_spec (kwargs : gmap string value) (w : world) :
  exists (a : gmap string value) (w' : world),
    construct kwargs w = (Entity a None, w') /\
    w_db w' = w_db w /\
    (forall (k : string) (v : value), kwargs !! k = Some v -> a !! k = Some v) /\
    (forall k : string,
       k <> "created_at" -> k <> "updated_at" -> a !! k = kwargs !! k).
Proof.
  unfold construct, default_factory, time_time.
  destruct (kwargs !! "created_at") as [c|] eqn:Hc.
  - destruct (kwargs !! "updated_at") as [u|] eqn:Hu.
    + eexists _, _. split; [reflexivity|]. by repeat split.
    + eexists _, _. split; [reflexivity|]. cbn [w_db]. repeat split.
      * intros k v Hk. rewrite lookup_insert_ne; [done|]. congruence.
      * intros k _ Hk. by rewrite lookup_insert_ne.
  - rewrite lookup_insert_ne by done.
    destruct (kwargs !! "updated_at") as [u|] eqn:Hu.
    + eexists _, _. split; [reflexivity|]. cbn [w_db]. repeat split.
      * intros k v Hk. rewrite lookup_insert_ne; [done|]. congruence.
      * intros k Hk _. by rewrite lookup_insert_ne.
    + eexists _, _. split; [reflexivity|]. cbn [w_db]. repeat split.
      * intros k v Hk. rewrite !lookup_insert_ne; [done|congruence..].
      * intros k Hk1 Hk2. by rewrite !lookup_insert_ne.
Qed.

Lemma col_lookup (r : gmap string value) (k : string) (v : value) :
  r !! k = Some v -> col r k = v.
Proof. unfold col. by intros ->. Qed.

Lemma col_not_null (r : gmap string value) (k : string) :
  col r k <> VNull -> exists v : value, r !! k = Some v /\ v <> VNull.
Proof.
  unfold col. destruct (r !! k) as [v|]; [|done]. intros Hv. by exists v.
Qed.

(** A default of the INSERT fills a column that has no value, and leaves
    every value that is there. *)
Lemma insert_default_spec (field : string) (a : gmap string value) (w : world) :
  exists (r : gmap string value) (w' : world),
    insert_default field a w = (r, w') /\
    w_db w' = w_db w /\
    (forall (k : string) (v : value),
       a !! k = Some v -> v <> VNull -> r !! k = Some v) /\
    (forall k : string, k <> field -> r !! k = a !! k) /\
    col r field <> VNull /\
    (col a field <> VNull -> r = a /\ w' = w).
Proof.
  unfold insert_default, time_time.
  destruct (col a field) as [|n|s|ts] eqn:Hfield.
  2-4: exists a, w; rewrite Hfield; by repeat split.
  eexists _, _. split; [reflexivity|]. cbn [w_db]. repeat split.
  - intros k v Hk Hv. rewrite lookup_insert_ne; [done|].
    intros <-. apply col_lookup in Hk. congruence.
  - intros k Hk. by rewrite lookup_insert_ne.
  - unfold col. by rewrite lookup_insert_eq.
  - done.
  - done.
Qed.

(** A row without a key is given one; a key that is there is kept. *)
Lemma insert_key_spec (a : gmap string value) (w : world) :
  exists (r : gmap string value) (w' : world),
    insert_key a w = (r, w') /\
    w_db w' = w_db w /\ w_reads w' = w_reads w /\
    (forall (k : string) (v : value),
       a !! k = Some v -> v <> VNull -> r !! k = Some v) /\
    (forall k : string, k <> "id" -> r !! k = a !! k) /\
    col r "id" <> VNull.
Proof.
  unfold insert_key, nextval.
  destruct (col a "id") as [|n|s|ts] eqn:Hid.
  2-4: exists a, w; rewrite Hid; by repeat split.
  eexists _, _. split; [reflexivity|]. cbn [w_db w_reads]. repeat split.
  - intros k v Hk Hv. rewrite lookup_insert_ne; [done|].
    intros <-. apply col_lookup in Hk. congruence.
  - intros k Hk. by rewrite lookup_insert_ne.
  - unfold col. by rewrite lookup_insert_eq.
Qed.

(** The row of an INSERT: every attribute that has a value is stored as
    it is; [id], [created_at] and [updated_at] are filled in where they
    have none; the other columns are left as they are. *)
Lemma prepare_insert_spec (a : gmap string value) (w : world) :
  exists (r : gmap string value) (w' : world),
    prepare_insert a w = (r, w') /\
    w_db w' = w_db w /\
    (forall (k : string) (v : value),
       a !! k = Some v -> v <> VNull -> r !! k = Some v) /\
    (forall k : string,
       k <> "id" -> k <> "created_at" -> k <> "updated_at" ->
       r !! k = a !! k) /\
    col r "id" <> VNull /\
    col r "created_at" <> VNull /\
    col r "updated_at" <> VNull /\
    (col a "created_at" <> VNull -> col a "updated_at" <> VNull ->
     w_reads w' = w_reads w).
Proof.
  unfold prepare_insert.
  destruct (insert_default_spec "created_at" a w)
    as (a1 & w1 & -> & Hdb1 & Hkeep1 & Hrest1 & Hset1 & Hsame1).
  destruct (insert_default_spec "updated_at" a1 w1)
    as (a2 & w2 & -> & Hdb2 & Hkeep2 & Hrest2 & Hset2 & Hsame2).
  destruct (insert_key_spec a2 w2)
    as (r & w' & -> & Hdb3 & Hreads3 & Hkeep3 & Hrest3 & Hset3).
  exists r, w'. split; [reflexivity|]. split; [congruence|].
  split; [|split; [|split; [|split; [|split]]]].
  - intros k v Hk Hv.
    apply Hkeep3; [|done]. apply Hkeep2; [|done]. by apply Hkeep1.
  - intros k Hid Hc Hu. rewrite Hrest3, Hrest2, Hrest1 by done. reflexivity.
  - exact Hset3.
  - destruct (col_not_null _ _ Hset1) as (v & Hv & Hnull).
    rewrite (col_lookup r "created_at" v); [done|].
    apply Hkeep3; [|done]. by apply Hkeep2.
  - destruct (col_not_null _ _ Hset2) as (v & Hv & Hnull).
    rewrite (col_lookup r "updated_at" v); [done|].
    by apply Hkeep3.
  - intros Hc Hu. destruct (Hsame1 Hc) as [-> ->].
    destruct (Hsame2 Hu) as [-> ->]. exact Hreads3.
Qed.

(** A row that the database accepts has a key, and one that is free. *)
Lemma row_violation_none (name : string) (t : table)
    (others : list (gmap string value)) (w : world) (r : gmap string value) :
  row_violation name t others w r = None ->
  col r "id" <> VNull /\ (col r "id" ∉ ids others).
Proof.
  unfold row_violation.
  destruct (negb (columns_exist t r)); [discriminate|].
  destruct (existsb _ _); [discriminate|].
  destruct (existsb _ _); [discriminate|].
  case_bool_decide as Hnull; [discriminate|].
  case_bool_decide as Hused; [discriminate|].
  by intros _.
Qed.

(** [session.add] and [session.commit] of an instance that was never
    persisted: one INSERT, which the database accepts or refuses. *)
Lemma add_commit_new (cls : model_class) (instance : entity) (w : world)
    (t : table) :
  w_db w !! __tablename__ (cls_name cls) = Some t ->
  committed instance = None ->
  exists (r : gmap string value) (w1 : world),
    prepare_insert (attrs instance) w = (r, w1) /\
    match row_violation (__tablename__ (cls_name cls)) t (tbl_rows t) w1 r with
    | None =>
        add_commit cls instance w
        = (Ok (load r),
           set_db w1 (<[__tablename__ (cls_name cls) :=
                          Table (tbl_columns t) (tbl_rows t ++ [r])]> (w_db w)))
    | Some e => add_commit cls instance w = (Raise e, w1)
    end.
Proof.
  intros Ht Hc. unfold add_commit, insert_row. rewrite Ht, Hc.
  destruct (prepare_insert (attrs instance) w) as [r w1].
  exists r, w1. split; [reflexivity|].
  by destruct (row_violation _ t (tbl_rows t) w1 r).
Qed.

(** ** [get_or_create] *)

Section get_or_create.

Variables (cls : model_class) (kwargs : gmap string value).
Variables (session : world) (t : table).
Hypothesis Htable : w_db session !! __tablename__ (cls_name cls) = Some t.
Hypothesis Hknown : known_criteria cls kwargs = true.

(** A row that agrees with the criteria, with none before it that does,
    is returned as it is; the session is not changed. *)
Lemma get_or_create_found (before after : list (gmap string value))
    (r : gmap string value) :
  tbl_rows t = (before ++ r :: after)%list ->
  matches kwargs r = true ->
  Forall (fun r' => matches kwargs r' = false) before ->
  BasesqlModel.get_or_create cls kwargs session
  = (Ok (Entity r (Some r), false), session).
Proof.
  intros Hrows Hr Hbefore.
  unfold BasesqlModel.get_or_create, query_filter_by_first.
  rewrite Hknown, Htable.
  assert (first_match kwargs (tbl_rows t) = Some r) as ->; [|reflexivity].
  apply first_match_some. by exists before, after.
Qed.

(** Without a matching row, the instance built from the criteria goes
    to the database in one INSERT: the row carries the criteria, a key
    and the two timestamps; the database accepts it, and the table has
    this row more, or refuses it, and the exception leaves the database
    as it was. *)
Lemma get_or_create_not_found :
  Forall (fun r => matches kwargs r = false) (tbl_rows t) ->
  exists (r : gmap string value) (w1 : world),
    w_db w1 = w_db session /\
    (forall (k : string) (v : value),
       kwargs !! k = Some v ->
       (v = VNull -> k <> "id" /\ k <> "created_at" /\ k <> "updated_at") ->
       r !! k = Some v) /\
    col r "id" <> VNull /\
    col r "created_at" <> VNull /\
    col r "updated_at" <> VNull /\
    match row_violation (__tablename__ (cls_name cls)) t (tbl_rows t) w1 r with
    | None =>
        BasesqlModel.get_or_create cls kwargs session
        = (Ok (load r, true),
           set_db w1 (<[__tablename__ (cls_name cls) :=
                          Table (tbl_columns t) (tbl_rows t ++ [r])]>
                        (w_db session)))
    | Some e => BasesqlModel.get_or_create cls kwargs session = (Raise e, w1)
    end.
Proof.
  intros Hnone%first_match_none.
  unfold BasesqlModel.get_or_create, query_filter_by_first.
  rewrite Hknown, Htable, Hnone. cbn [fmap option_fmap option_map].
  destruct (construct_spec kwargs session) as (a & w' & -> & Hdb & Hkw & Hother).
  destruct (add_commit_new cls (Entity a None) w' t) as (r & w1 & Hprep & Hadd);
    [by rewrite Hdb | reflexivity |].
  cbn [attrs] in Hprep.
  destruct (prepare_insert_spec a w')
    as (r' & w1' & Hprep' & Hdb1 & Hkeep & Hrest & Hid & Hc & Hu & _).
  rewrite Hprep in Hprep'. injection Hprep' as <- <-.
  exists r, w1. split; [congruence|]. split; [|split; [|split; [|split]]];
    try done.
  - intros k v Hk Hv. destruct (decide (v = VNull)) as [->|Hnull].
    + destruct Hv as (H1 & H2 & H3); [done|].
      rewrite Hrest by done. by apply Hkw.
    + apply Hkeep; [by apply Hkw | done].
  - rewrite Hdb in Hadd.
    destruct (row_violation _ t (tbl_rows t) w1 r); by rewrite Hadd.
Qed.

End get_or_create.

(** The three ways a call of [get_or_create] can end. *)
Lemma get_or_create_inv (cls : model_class) (kwargs : gmap string value)
    (session session' : world) (res : result (entity * bool)) :
  BasesqlModel.get_or_create cls kwargs session = (res, session') ->
  (exists (t : table) (r : gmap string value),
     known_criteria cls kwargs = true /\
     w_db session !! __tablename__ (cls_name cls) = Some t /\
     first_match kwargs (tbl_rows t) = Some r /\
     res = Ok (load r, false) /\ session' = session) \/
  (exists (t : table) (r : gmap string value),
     known_criteria cls kwargs = true /\
     w_db session !! __tablename__ (cls_name cls) = Some t /\
     first_match kwargs (tbl_rows t) = None /\
     res = Ok (load r, true) /\
     col r "id" <> VNull /\ (col r "id" ∉ ids (tbl_rows t)) /\
     (forall (k : string) (v : value),
        kwargs !! k = Some v ->
        (v = VNull -> k <> "id" /\ k <> "created_at" /\ k <> "updated_at") ->
        r !! k = Some v) /\
     w_db session'
     = <[__tablename__ (cls_name cls) :=
           Table (tbl_columns t) (tbl_rows t ++ [r])]> (w_db session)) \/
  (exists e : exn, res = Raise e /\ w_db session' = w_db session).
Proof.
  destruct (known_criteria cls kwargs) eqn:Hknown.
  2:{ unfold BasesqlModel.get_or_create, query_filter_by_first.
      rewrite Hknown. intros [= <- <-]. right. right. by eexists. }
  destruct (w_db session !! __tablename__ (cls_name cls)) as [t|] eqn:Ht.
  2:{ unfold BasesqlModel.get_or_create, query_filter_by_first.
      rewrite Hknown, Ht. intros [= <- <-]. right. right. by eexists. }
  destruct (first_match kwargs (tbl_rows t)) as [r|] eqn:Hfirst.
  { unfold BasesqlModel.get_or_create, query_filter_by_first.
    rewrite Hknown, Ht, Hfirst. cbn [fmap option_fmap option_map].
    intros [= <- <-]. left. by exists t, r. }
  destruct (get_or_create_not_found cls kwargs session t Ht Hknown)
    as (r & w1 & Hdb & Hkw & _ & _ & _ & Hcall);
    [by apply first_match_none|].
  destruct (row_violation _ t (tbl_rows t) w1 r) as [e|] eqn:Hrow;
    rewrite Hcall; intros [= <- <-].
  - right. right. by exists e.
  - right. left. destruct (row_violation_none _ _ _ _ _ Hrow) as [Hnull Hfree].
    exists t, r. by repeat split.
Qed.

(** A row that carries the criteria is what the lookup finds behind
    rows that do not match. *)
Lemma first_match_new_row (kwargs r : gmap string value)
    (rows : list (gmap string value)) :
  first_match kwargs rows = None ->
  (forall (k : string) (v : value), kwargs !! k = Some v -> r !! k = Some v) ->
  first_match kwargs (rows ++ [r]) = Some r.
Proof.
  intros Hnone%first_match_none Hkw.
  rewrite first_match_app by done. cbn [first_match].
  assert (matches kwargs r = true) as ->; [|reflexivity].
  apply matches_spec. intros k v Hk. by apply col_lookup, Hkw.
Qed.

(** After [get_or_create] has returned, with criteria that leave none of
    [id], [created_at] and [updated_at] to the database, the lookup finds
    the instance that was returned. *)
Lemma get_or_create_then_found (cls : model_class) (kwargs : gmap string value)
    (session session' : world) (instance : entity) (created : bool) :
  (forall k : string,
     k ∈ ["id"; "created_at"; "updated_at"] -> kwargs !! k <> Some VNull) ->
  BasesqlModel.get_or_create cls kwargs session
  = (Ok (instance, created), session') ->
  query_filter_by_first cls kwargs session' = Ok (Some instance).
Proof.
  intros Hset Hcall. unfold query_filter_by_first.
  destruct (get_or_create_inv _ _ _ _ _ Hcall)
    as [(t & r & -> & Ht & Hfirst & [= -> ->] & ->)
       |[(t & r & -> & Ht & Hfirst & [= -> ->] & _ & _ & Hkw & Hdb)
        |(e & [=] & _)]].
  - by rewrite Ht, Hfirst.
  - rewrite Hdb, lookup_insert_eq. cbn [tbl_rows].
    rewrite (first_match_new_row kwargs r); [done | done |].
    intros k v Hk. apply Hkw; [done|]. intros ->.
    repeat split; intros ->; refine (Hset _ _ Hk); repeat constructor.
Qed.

(** C1: in a session whose database has the table of the class, and
    with criteria that name columns of the class, [get_or_create] returns
    the first row that agrees with the criteria on every field they name,
    as an unmodified instance with [created = False], and leaves the
    session as it was.  When no row agrees, it builds an instance from
    the criteria and sends it to the database in one INSERT: the row
    carries the criteria, with a key and the two timestamps filled in
    where the criteria give none.  Where the database accepts the row, the
    call returns the stored instance with [created = True], under a key
    that was free, and the table has this one row more; where the
    database refuses it, the exception reaches the caller and nothing is
    stored. *)
Theorem C1_get_or_create (cls : model_class) (kwargs : gmap string value)
    (session : world) (t : table) :
  w_db session !! __tablename__ (cls_name cls) = Some t ->
  known_criteria cls kwargs = true ->
  (forall (before after : list (gmap string value)) (r : gmap string value),
     tbl_rows t = (before ++ r :: after)%list ->
     (forall (k : string) (v : value), kwargs !! k = Some v -> col r k = v) ->
     Forall (fun r' => matches kwargs r' = false) before ->
     BasesqlModel.get_or_create cls kwargs session
     = (Ok (Entity r (Some r), false), session)) /\
  (Forall (fun r => matches kwargs r = false) (tbl_rows t) ->
   exists (r : gmap string value) (session1 : world),
     w_db session1 = w_db session /\
     (forall (k : string) (v : value),
        kwargs !! k = Some v ->
        (v = VNull -> k <> "id" /\ k <> "created_at" /\ k <> "updated_at") ->
        r !! k = Some v) /\
     col r "id" <> VNull /\
     col r "created_at" <> VNull /\
     col r "updated_at" <> VNull /\
     match
       row_violation (__tablename__ (cls_name cls)) t (tbl_rows t) session1 r
     with
     | None =>
         BasesqlModel.get_or_create cls kwargs session
         = (Ok (load r, true),
            set_db session1
              (<[__tablename__ (cls_name cls) :=
                   Table (tbl_columns t) (tbl_rows t ++ [r])]> (w_db session))) /\
         (col r "id" ∉ ids (tbl_rows t))
     | Some e =>
         BasesqlModel.get_or_create cls kwargs session = (Raise e, session1)
     end).
Proof.
  intros Ht Hknown. split.
  - intros before after r Hrows Hr Hbefore.
    apply (get_or_create_found cls kwargs session t Ht Hknown before after r);
      [done | by apply matches_spec | done].
  - intros Hnone.
    destruct (get_or_create_not_found cls kwargs session t Ht Hknown Hnone)
      as (r & w1 & Hdb & Hkw & Hid & Hc & Hu & Hcall).
    exists r, w1. split; [done|]. split; [done|].
    split; [done|]. split; [done|]. split; [done|].
    destruct (row_violation _ t (tbl_rows t) w1 r) eqn:Hrow; [done|].
    split; [done|]. by apply (row_violation_none _ _ _ _ _ Hrow).
Qed.

Lemma C1_get_or_create_witness :
  w_db Examples.world_x !! __tablename__ (cls_name Examples.Widget)
  = Some (Table Examples.widget_columns [Examples.row_x]) /\
  known_criteria Examples.Widget {[ "name" := VStr "x" ]} = true /\
  BasesqlModel.get_or_create Examples.Widget {[ "name" := VStr "x" ]}
    Examples.world_x
  = (Ok (Entity Examples.row_x (Some Examples.row_x), false), Examples.world_x) /\
  (exists (r : gmap string value) (session' : world),
     BasesqlModel.get_or_create Examples.Widget {[ "name" := VStr "z" ]}
       Examples.world_x
     = (Ok (load r, true), session') /\
     r !! "name" = Some (VStr "z") /\
     col r "id" <> VNull).
Proof.
  split; [reflexivity|]. split; [vm_compute; reflexivity|]. split.
  - assert (Hknown : known_criteria Examples.Widget {[ "name" := VStr "x" ]}
                     = true) by (vm_compute; reflexivity).
    destruct (C1_get_or_create Examples.Widget {[ "name" := VStr "x" ]}
                Examples.world_x
                (Table Examples.widget_columns [Examples.row_x])
                eq_refl Hknown)
      as (Hfound & _).
    apply (Hfound [] [] Examples.row_x); [reflexivity | | constructor].
    intros k v [<- <-]%lookup_singleton_Some. reflexivity.
  - assert (Hknown : known_criteria Examples.Widget {[ "name" := VStr "z" ]}
                     = true) by (vm_compute; reflexivity).
    destruct (C1_get_or_create Examples.Widget {[ "name" := VStr "z" ]}
                Examples.world_x
                (Table Examples.widget_columns [Examples.row_x])
                eq_refl Hknown)
      as (_ & Hnew).
    destruct Hnew as (r & session1 & _ & Hkw & Hid & _ & _ & Hcall).
    + constructor; [vm_compute; reflexivity | constructor].
    + destruct (row_violation _ _ _ session1 r) as [e|].
      * vm_compute in Hcall. discriminate Hcall.
      * destruct Hcall as [Hcall _]. eexists r, _.
        split; [exact Hcall|]. split; [|exact Hid].
        apply Hkw; [apply lookup_singleton_eq | discriminate].
Defined.

(** Criteria that no row matches and that name a key in use: the
    instance is built, the INSERT is refused, and the call raises
    instead of returning [created = True].  And criteria that name no
    column of the class: [filter_by] raises before any row is looked
    at. *)
Lemma C1_counterexample :
  let kwargs : gmap string value := {[ "id" := VInt 1; "name" := VStr "z" ]} in
  let out := BasesqlModel.get_or_create Examples.Widget kwargs Examples.world_x in
  let misspelt : gmap string value := {[ "nme" := VStr "z" ]} in
  known_criteria Examples.Widget kwargs = true /\
  first_match kwargs (stored_rows "widget" Examples.world_x) = None /\
  out.1 = Raise (IntegrityError "duplicate key") /\
  created_flag out = None /\
  stored_rows "widget" out.2 = stored_rows "widget" Examples.world_x /\
  first_match misspelt (stored_rows "widget" Examples.world_x) = None /\
  BasesqlModel.get_or_create Examples.Widget misspelt Examples.world_x
  = (Raise (InvalidRequestError "widget"), Examples.world_x).
Proof. vm_compute. repeat split; reflexivity. Qed.

(** C7: in a session whose table has no row that agrees with the
    criteria, with criteria that bind none of [id], [created_at] and
    [updated_at] to [None], a first call of [get_or_create] that returns
    has created its instance, and a second call with the same criteria
    returns the same instance, with the same [id], and
    [created = False]. *)
Theorem C7_get_or_create_twice (cls : model_class)
    (kwargs : gmap string value) (session session1 : world) (t : table)
    (first : entity) (created : bool) :
  w_db session !! __tablename__ (cls_name cls) = Some t ->
  Forall (fun r => matches kwargs r = false) (tbl_rows t) ->
  (forall k : string,
     k ∈ ["id"; "created_at"; "updated_at"] -> kwargs !! k <> Some VNull) ->
  BasesqlModel.get_or_create cls kwargs session
  = (Ok (first, created), session1) ->
  created = true /\
  (exists second : entity,
     BasesqlModel.get_or_create cls kwargs session1
     = (Ok (second, false), session1) /\
     entity_id second = entity_id first) /\
  entity_id first <> VNull.
Proof.
  intros Ht Hnone Hset Hcall.
  pose proof (get_or_create_then_found _ _ _ _ _ _ Hset Hcall) as Hfound.
  destruct (get_or_create_inv _ _ _ _ _ Hcall)
    as [(t' & r & _ & Ht' & Hfirst & _ & _)
       |[(t' & r & _ & _ & _ & [= -> ->] & Hid & _)|(e & [=] & _)]].
  { rewrite Ht in Ht'. injection Ht' as <-.
    apply first_match_none in Hnone. congruence. }
  split; [reflexivity|]. split; [|exact Hid].
  exists (load r). split; [|reflexivity].
  unfold BasesqlModel.get_or_create. by rewrite Hfound.
Qed.

Lemma C7_get_or_create_twice_witness :
  exists (first : entity) (session1 : world),
    BasesqlModel.get_or_create Examples.Widget {[ "name" := VStr "z" ]}
      Examples.world_x
    = (Ok (first, true), session1) /\
    BasesqlModel.get_or_create Examples.Widget {[ "name" := VStr "z" ]} session1
    = (Ok (first, false), session1) /\
    entity_id first <> VNull.
Proof.
  destruct (BasesqlModel.get_or_create Examples.Widget {[ "name" := VStr "z" ]}
              Examples.world_x) as [[[first created]|e] session1] eqn:Hcall.
  - destruct (C7_get_or_create_twice Examples.Widget {[ "name" := VStr "z" ]}
                Examples.world_x session1
                (Table Examples.widget_columns [Examples.row_x]) first created)
      as (-> & (second & Hsecond & Hsame) & Hid).
    + reflexivity.
    + constructor; [vm_compute; reflexivity | constructor].
    + intros k Hk Hnull. apply lookup_singleton_Some in Hnull as [_ Hnull].
      discriminate Hnull.
    + exact Hcall.
    + exists first, session1. split; [reflexivity|]. split; [|exact Hid].
      rewrite Hsecond. vm_compute in Hcall.
      injection Hcall as <- <-. vm_compute in Hsecond.
      injection Hsecond as <-. reflexivity.
  - vm_compute in Hcall. discriminate Hcall.
Defined.

(** Criteria that bind [id] or [created_at] to [None]: the row stored by
    the first call has the key the sequence gave it, and the time the
    clock showed; the second call looks for a row without them, finds
    none and stores a second row.  And a sequence that stands at a key
    which a row took for itself: the first call raises. *)
Lemma C7_counterexample :
  first_match {[ "id" := VNull; "name" := VStr "x" ]}
    (stored_rows "widget" Examples.empty_world) = None /\
  called_twice Examples.Widget {[ "id" := VNull; "name" := VStr "x" ]}
    Examples.empty_world
  = ((Some true, Some (VInt 1)), (Some true, Some (VInt 2)), 2%nat) /\
  first_match {[ "created_at" := VNull; "name" := VStr "x" ]}
    (stored_rows "widget" Examples.empty_world) = None /\
  called_twice Examples.Widget {[ "created_at" := VNull; "name" := VStr "x" ]}
    Examples.empty_world
  = ((Some true, Some (VInt 1)), (Some true, Some (VInt 2)), 2%nat) /\
  first_match {[ "name" := VStr "z" ]}
    (stored_rows "widget" Examples.world_x_own_key) = None /\
  (BasesqlModel.get_or_create Examples.Widget {[ "name" := VStr "z" ]}
     Examples.world_x_own_key).1
  = Raise (IntegrityError "duplicate key").
Proof. vm_compute. repeat split; reflexivity. Qed.

(** ** [save] on a persisted instance *)

Lemma find_pk_spec (pk : value) (rows : list (gmap string value)) (i : nat) :
  find_pk pk rows = Some i ->
  exists r : gmap string value, rows !! i = Some r /\ col r "id" = pk.
Proof.
  revert i. induction rows as [|r0 rows IH]; intros i; cbn [find_pk].
  - discriminate.
  - case_bool_decide as Hr0.
    + intros [= <-]. by exists r0.
    + destruct (find_pk pk rows) as [j|]; [|discriminate].
      intros [= <-]. by apply IH.
Qed.

(** A persisted instance with changed attributes is written by one
    UPDATE of its row: the changed attributes, then the [onupdate]
    defaults of the columns that are not among them, over the stored
    row. *)
Lemma save_persisted (cls : model_class) (self self' : entity)
    (session session' : world) (r0 : gmap string value) :
  committed self = Some r0 ->
  changed (attrs self) r0 <> ∅ ->
  BasesqlModel.save cls self session = (Ok self', session') ->
  exists (t : table) (i : nat) (r : gmap string value),
    w_db session !! __tablename__ (cls_name cls) = Some t /\
    tbl_rows t !! i = Some r /\
    col r "id" = col r0 "id" /\
    self' = load ((changed (attrs self) r0 ∪ onupdate cls) ∪ r) /\
    row_violation (__tablename__ (cls_name cls)) t (delete i (tbl_rows t))
      session (attrs self') = None /\
    w_db session'
    = <[__tablename__ (cls_name cls) :=
          Table (tbl_columns t) (<[i := attrs self']> (tbl_rows t))]>
        (w_db session).
Proof.
  intros Hc Hdirty. unfold BasesqlModel.save, add_commit.
  destruct (w_db session !! __tablename__ (cls_name cls)) as [t|] eqn:Ht;
    [|discriminate].
  rewrite Hc, bool_decide_eq_false_2 by done.
  unfold sql_update.
  destruct (find_pk (col r0 "id") (tbl_rows t)) as [i|] eqn:Hi; [|discriminate].
  destruct (find_pk_spec _ _ _ Hi) as (r & Hr & Hid). rewrite Hr.
  destruct (row_violation _ t _ session _) as [e|] eqn:Hrow; [discriminate|].
  intros [= <- <-]. exists t, i, r. by repeat split.
Qed.

Lemma save_persisted_stored (cls : model_class) (self self' : entity)
    (session session' : world) (r0 : gmap string value) :
  committed self = Some r0 ->
  changed (attrs self) r0 <> ∅ ->
  BasesqlModel.save cls self session = (Ok self', session') ->
  attrs self' ∈ stored_rows (__tablename__ (cls_name cls)) session'.
Proof.
  intros Hc Hdirty Hsave.
  destruct (save_persisted _ _ _ _ _ _ Hc Hdirty Hsave)
    as (t & i & r & Ht & Hr & _ & _ & _ & Hdb).
  unfold stored_rows. rewrite Hdb, lookup_insert_eq. cbn [tbl_rows].
  apply list_elem_of_lookup_2 with i, list_lookup_insert_eq.
  by apply lookup_lt_Some in Hr.
Qed.

(** [updated_at] has no [onupdate]: unless the caller assigns it, the
    UPDATE of [save] leaves the stored value, whatever the clock shows. *)
Lemma save_keeps_updated_at (cls : model_class) (self self' : entity)
    (session session' : world) (r0 : gmap string value) :
  committed self = Some r0 ->
  changed (attrs self) r0 <> ∅ ->
  changed (attrs self) r0 !! "updated_at" = None ->
  BasesqlModel.save cls self session = (Ok self', session') ->
  exists r : gmap string value,
    r ∈ stored_rows (__tablename__ (cls_name cls)) session /\
    col r "id" = col r0 "id" /\
    col (attrs self') "updated_at" = col r "updated_at".
Proof.
  intros Hc Hdirty Hupd Hsave.
  destruct (save_persisted _ _ _ _ _ _ Hc Hdirty Hsave)
    as (t & i & r & Ht & Hr & Hid & -> & _ & _).
  exists r. unfold stored_rows. rewrite Ht.
  split; [by apply list_elem_of_lookup_2 with i|]. split; [done|].
  cbn [load attrs]. unfold col, onupdate.
  rewrite (lookup_union_r (_ ∪ _)); [done|].
  apply lookup_union_None_2; [done|]. by apply lookup_singleton_ne.
Qed.

Lemma save_keeps_updated_at_witness :
  exists r : gmap string value,
    r ∈ stored_rows "widget" Examples.world_x /\
    col r "id" = VInt 1 /\
    saved_col "updated_at"
      (BasesqlModel.save Examples.Widget Examples.renamed Examples.world_x)
    = Some (col r "updated_at").
Proof.
  destruct (BasesqlModel.save Examples.Widget Examples.renamed Examples.world_x)
    as [[self'|e] session'] eqn:Hsave.
  - destruct (save_keeps_updated_at Examples.Widget Examples.renamed self'
                Examples.world_x session' Examples.row_x)
      as (r & Hin & Hid & Hupd); [reflexivity | | reflexivity | exact Hsave |].
    + intros H. vm_compute in H. discriminate H.
    + exists r. split; [exact Hin|]. split; [exact Hid|].
      unfold saved_col. cbn [fst]. f_equal. exact Hupd.
  - vm_compute in Hsave. discriminate Hsave.
Defined.

(** C2, on a stored widget that was created and last written at time
    100, was loaded and renamed, and is saved when the clock shows 1000:
    the row keeps its [id] and takes the new name, [updated_at] stays
    100, the value of [created_at], and [deleted_at] becomes 50, the time
    at which the class was defined. *)
Theorem C2_save_leaves_updated_at :
  let out := BasesqlModel.save Examples.Widget Examples.renamed Examples.world_x in
  saved_col "id" out = Some (VInt 1) /\
  saved_col "name" out = Some (VStr "y") /\
  saved_col "created_at" out = Some (VTime 100) /\
  saved_col "updated_at" out = Some (VTime 100) /\
  saved_col "deleted_at" out = Some (VTime 50) /\
  map (fun r => (col r "id", col r "updated_at")) (stored_rows "widget" out.2)
  = [(VInt 1, VTime 100)].
Proof. vm_compute. repeat split; reflexivity. Qed.

(** C9: the UPDATE that [save] issues for a persisted instance writes
    [deleted_at] in the stored row: the value the caller assigned when
    [deleted_at] is among the changed attributes, and otherwise the
    timestamp taken when the class was defined, whatever the clock shows
    at the time of the update. *)
Theorem C9_update_sets_deleted_at (cls : model_class) (self self' : entity)
    (session session' : world) (r0 : gmap string value) :
  committed self = Some r0 ->
  changed (attrs self) r0 <> ∅ ->
  BasesqlModel.save cls self session = (Ok self', session') ->
  attrs self' ∈ stored_rows (__tablename__ (cls_name cls)) session' /\
  col (attrs self') "deleted_at"
  = match changed (attrs self) r0 !! "deleted_at" with
    | Some v => v
    | None => VTime (cls_defined_at cls)
    end.
Proof.
  intros Hc Hdirty Hsave.
  split; [by eapply save_persisted_stored|].
  destruct (save_persisted _ _ _ _ _ _ Hc Hdirty Hsave)
    as (t & i & r & _ & _ & _ & -> & _ & _).
  cbn [load attrs]. apply col_lookup.
  destruct (changed (attrs self) r0 !! "deleted_at") as [v|] eqn:Hv.
  - by apply lookup_union_Some_l, lookup_union_Some_l.
  - apply lookup_union_Some_l. rewrite lookup_union_r by done.
    apply lookup_singleton_eq.
Qed.

Lemma C9_update_sets_deleted_at_witness :
  saved_col "deleted_at"
    (BasesqlModel.save Examples.Widget Examples.renamed Examples.world_x)
  = Some (VTime (cls_defined_at Examples.Widget)).
Proof.
  destruct (BasesqlModel.save Examples.Widget Examples.renamed Examples.world_x)
    as [[self'|e] session'] eqn:Hsave.
  - unfold saved_col. cbn [fst]. f_equal.
    apply (C9_update_sets_deleted_at Examples.Widget Examples.renamed self'
             Examples.world_x session' Examples.row_x);
      [reflexivity | | exact Hsave].
    intros H. vm_compute in H. discriminate H.
  - vm_compute in Hsave. discriminate Hsave.
Defined.

(** An update that assigns [deleted_at] itself stores the assigned value:
    900 where the caller marks the row, and NULL where the caller
    restores a marked row. *)
Lemma C9_counterexample :
  saved_col "deleted_at"
    (BasesqlModel.save Examples.Widget Examples.deleted_by_hand Examples.world_x)
  = Some (VTime 900) /\
  VTime 900 <> VTime (cls_defined_at Examples.Widget) /\
  saved_col "deleted_at"
    (BasesqlModel.save Examples.Widget Examples.restored Examples.world_marked)
  = Some VNull /\
  map (fun r => col r "deleted_at")
    (stored_rows "widget"
       (BasesqlModel.save Examples.Widget Examples.restored
          Examples.world_marked).2)
  = [VNull].
Proof. vm_compute. repeat split; try reflexivity. discriminate. Qed.

(** ** [validate_data] *)

(** Inside the [try] block an exception of the validation is logged and
    handed back as a value. *)
Lemma validate_records_returned
    (model_validate :
       validation_model -> list (gmap string value) -> result (list entity))
    (DataValidationModel : validation_model) (df : dataframe)
    (log : list (string * string)) (e : exn) :
  model_validate DataValidationModel (to_dict df) = Raise e ->
  BasesqlModel.validate_records model_validate DataValidationModel df log
  = (Returned e, (log ++ [("error", ("Error: " ++ exn_str e)%string)])%list).
Proof. intros H. unfold BasesqlModel.validate_records. by rewrite H. Qed.

(** C8: the class statement of [DataValidationModel] annotates
    [__root__] and stands before the [try] block, so every call of
    [validate_data] raises [TypeError] there: no row is converted, nothing
    is logged and no error value is returned, whatever the frame holds and
    whatever the validation would have done. *)
Theorem C8_validate_data_raises
    (model_validate :
       validation_model -> list (gmap string value) -> result (list entity))
    (cls : model_class) (df : dataframe) (log : list (string * string)) :
  BasesqlModel.validate_data model_validate cls df log
  = (Raise (TypeError
       "To define root models, use `pydantic.RootModel` rather than a field called '__root__'"),
     log).
Proof. reflexivity. Qed.

(** * Further properties *)

(** ** Table names *)

Lemma lower_char_underscore (c : ascii) :
  bool_decide (PyStr.lower_char c = "_"%char) = bool_decide (c = "_"%char).
Proof. destruct c as [[] [] [] [] [] [] [] []]; reflexivity. Qed.

Lemma remove_underscores_lower (s : string) :
  remove_underscores (PyStr.lower s) = PyStr.lower (remove_underscores s).
Proof.
  induction s as [|c rest IH]; [reflexivity|].
  cbn [PyStr.lower remove_underscores]. rewrite lower_char_underscore.
  case_bool_decide; [exact IH|]. cbn [PyStr.lower]. by rewrite IH.
Qed.

Lemma remove_underscores_insert (s : string) :
  remove_underscores (PyStr.insert_underscores s) = remove_underscores s.
Proof.
  induction s as [|a rest IH]; [reflexivity|].
  destruct rest as [|b rest']; [reflexivity|].
  change (PyStr.insert_underscores (String a (String b rest'))) with
    (if PyStr.is_lower_or_digit a && PyStr.is_upper b
     then String a (String "_" (PyStr.insert_underscores (String b rest')))
     else String a (PyStr.insert_underscores (String b rest'))).
  destruct (PyStr.is_lower_or_digit a && PyStr.is_upper b).
  - change (remove_underscores (String a (String "_" ?t))) with
      (if bool_decide (a = "_"%char) then remove_underscores t
       else String a (remove_underscores t)).
    rewrite IH. reflexivity.
  - change (remove_underscores (String a ?t)) with
      (if bool_decide (a = "_"%char) then remove_underscores t
       else String a (remove_underscores t)).
    rewrite IH. reflexivity.
Qed.

Lemma ascii_tablename_lowercase (name : string) :
  PyStr.no_upper (__tablename__ name) = true /\
  (PyStr.no_upper name = true -> __tablename__ name = name).
Proof.
  split; [apply no_upper_lower|].
  intros Hname. unfold __tablename__.
  rewrite re_sub_camel_insert_underscores.
  rewrite (insert_underscores_no_upper name Hname).
  by apply lower_no_upper.
Qed.

Lemma no_upper_codes (s : string) :
  forallb (fun c => negb (UniStr.is_upper c)) (UniStr.codes s) = PyStr.no_upper s.
Proof.
  induction s as [|c rest IH]; [reflexivity|].
  rewrite codes_cons. cbn [forallb PyStr.no_upper]. by rewrite IH.
Qed.

(** The table name of an ASCII name has no capital letter, and an ASCII
    name without capital letters is its own table name. *)
Theorem tablename_lowercase (U : UniStr.unicode) (name : string) :
  UniStr.faithful U ->
  UniStr.ascii_only (UniStr.codes name) = true ->
  forallb (fun c => negb (UniStr.is_upper c))
    (UniStr.__tablename__ U (UniStr.codes name)) = true /\
  (forallb (fun c => negb (UniStr.is_upper c)) (UniStr.codes name) = true ->
   UniStr.__tablename__ U (UniStr.codes name) = UniStr.codes name).
Proof.
  intros HU Hname. rewrite (tablename_codes U HU name Hname), !no_upper_codes.
  destruct (ascii_tablename_lowercase name) as [Hlower Hsame].
  split; [exact Hlower|]. intros Hno. by rewrite (Hsame Hno).
Qed.

Lemma tablename_lowercase_witness :
  UniStr.faithful UniStr.sample /\
  UniStr.ascii_only (UniStr.codes "order_item2") = true /\
  UniStr.__tablename__ UniStr.sample (UniStr.codes "order_item2")
  = UniStr.codes "order_item2".
Proof.
  split; [exact sample_faithful|]. split; [reflexivity|].
  apply (proj2 (tablename_lowercase UniStr.sample "order_item2"
                  sample_faithful eq_refl)).
  reflexivity.
Defined.

Lemma ascii_tablename_keeps_letters (name : string) :
  remove_underscores (__tablename__ name)
  = PyStr.lower (remove_underscores name).
Proof.
  unfold __tablename__.
  rewrite remove_underscores_lower, re_sub_camel_insert_underscores.
  by rewrite remove_underscores_insert.
Qed.

Lemma without_underscores_codes (s : string) :
  without_underscores (UniStr.codes s) = UniStr.codes (remove_underscores s).
Proof.
  induction s as [|c rest IH]; [reflexivity|].
  rewrite codes_cons. unfold without_underscores in *.
  cbn [List.filter remove_underscores]. rewrite IH.
  assert (negb (N_of_ascii c =? UniStr.underscore)%N
          = negb (bool_decide (c = "_"%char))) as ->.
  { destruct c as [[] [] [] [] [] [] [] []]; reflexivity. }
  by destruct (bool_decide (c = "_"%char)).
Qed.

(** The derivation only lowercases and inserts underscores: with the
    underscores taken out, the table name of an ASCII name is the
    lowercased type name with its underscores taken out. *)
Theorem tablename_keeps_letters (U : UniStr.unicode) (name : string) :
  UniStr.faithful U ->
  UniStr.ascii_only (UniStr.codes name) = true ->
  without_underscores (UniStr.__tablename__ U (UniStr.codes name))
  = map UniStr.ascii_lower (without_underscores (UniStr.codes name)).
Proof.
  intros HU Hname.
  rewrite (tablename_codes U HU name Hname), !without_underscores_codes.
  by rewrite ascii_tablename_keeps_letters, lower_codes.
Qed.

Lemma tablename_keeps_letters_witness :
  UniStr.faithful UniStr.sample /\
  UniStr.ascii_only (UniStr.codes "Order_Item2Go") = true /\
  without_underscores
    (UniStr.__tablename__ UniStr.sample (UniStr.codes "Order_Item2Go"))
  = UniStr.codes "orderitem2go".
Proof.
  split; [exact sample_faithful|]. split; [reflexivity|].
  rewrite (tablename_keeps_letters UniStr.sample "Order_Item2Go"
             sample_faithful eq_refl).
  reflexivity.
Defined.



Lemma length_lower (s : string) : String.length (PyStr.lower s) = String.length s.
Proof. induction s as [|c rest IH]; [reflexivity|]. cbn. by rewrite IH. Qed.

Lemma length_re_sub_camel (s : string) :
  (String.length s <= String.length (PyStr.re_sub_camel s) /\
   2 * String.length (PyStr.re_sub_camel s) <= 3 * String.length s)%nat.
Proof.
  remember (String.length s) as n eqn:Hn.
  revert s Hn. induction n as [n IH] using lt_wf_ind. intros s Hn.
  destruct s as [|a [|b rest']]; [subst; cbn; lia | subst; cbn; lia |].
  change (PyStr.re_sub_camel (String a (String b rest'))) with
    (if PyStr.is_lower_or_digit a && PyStr.is_upper b
     then String a (String "_" (String b (PyStr.re_sub_camel rest')))
     else String a (PyStr.re_sub_camel (String b rest'))).
  cbn [String.length] in Hn.
  destruct (PyStr.is_lower_or_digit a && PyStr.is_upper b).
  - destruct (IH (String.length rest') ltac:(lia) rest' eq_refl).
    cbn [String.length]. lia.
  - destruct (IH (String.length (String b rest')) ltac:(cbn; lia)
                (String b rest') eq_refl) as [H1 H2].
    cbn [String.length] in H1, H2 |- *. lia.
Qed.

Lemma length_codes (s : string) : length (UniStr.codes s) = String.length s.
Proof.
  induction s as [|c rest IH]; [reflexivity|].
  rewrite codes_cons. cbn [length String.length]. by rewrite IH.
Qed.

(** The table name of an ASCII name is at least as long as the type
    name and at most half as long again: the underscores stand between
    matches that do not overlap. *)
Theorem tablename_length (U : UniStr.unicode) (name : string) :
  UniStr.faithful U ->
  UniStr.ascii_only (UniStr.codes name) = true ->
  (length (UniStr.codes name)
   <= length (UniStr.__tablename__ U (UniStr.codes name)) /\
   2 * length (UniStr.__tablename__ U (UniStr.codes name))
   <= 3 * length (UniStr.codes name))%nat.
Proof.
  intros HU Hname. rewrite (tablename_codes U HU name Hname), !length_codes.
  unfold __tablename__. rewrite length_lower. apply length_re_sub_camel.
Qed.

Lemma tablename_length_witness :
  UniStr.faithful UniStr.sample /\
  UniStr.ascii_only (UniStr.codes "aBcD") = true /\
  length (UniStr.__tablename__ UniStr.sample (UniStr.codes "aBcD")) = 6%nat /\
  (2 * length (UniStr.__tablename__ UniStr.sample (UniStr.codes "aBcD"))
   <= 3 * length (UniStr.codes "aBcD"))%nat.
Proof.
  split; [exact sample_faithful|]. split; [reflexivity|].
  split; [reflexivity|].
  exact (proj2 (tablename_length UniStr.sample "aBcD" sample_faithful eq_refl)).
Defined.

(** ** The gateway *)

(** A second [create_table] of the same name changes nothing, whatever
    columns it asks for: the table keeps its columns and its rows. *)
Theorem create_table_twice (db : gmap string table) (table_name : string)
    (columns columns' : list column) :
  (db_pgsql.create_table
     (db_pgsql.create_table db table_name columns).2 table_name columns').2
  = (db_pgsql.create_table db table_name columns).2.
Proof.
  unfold db_pgsql.create_table.
  destruct (db !! table_name) as [t|] eqn:Hdb; cbn [snd].
  - by rewrite Hdb.
  - by rewrite lookup_insert_eq.
Qed.

(** Creating a table that was absent and dropping it again restores the
    database. *)
Theorem create_table_then_drop_table (db : gmap string table)
    (table_name : string) (columns : list column) :
  db !! table_name = None ->
  db_pgsql.drop_table (db_pgsql.create_table db table_name columns).2 table_name
  = (Ok tt, db).
Proof.
  intros Hdb. unfold db_pgsql.create_table, db_pgsql.drop_table.
  rewrite Hdb. cbn [snd]. rewrite lookup_insert_eq.
  by rewrite delete_insert_eq, delete_id.
Qed.

Lemma create_table_then_drop_table_witness :
  db_pgsql.drop_table
    (db_pgsql.create_table ∅ "widget" Examples.widget_columns).2 "widget"
  = (Ok tt, ∅).
Proof.
  apply (create_table_then_drop_table ∅ "widget" Examples.widget_columns).
  reflexivity.
Defined.

(** After [drop_table], whether it dropped the table or raised, the
    table is gone: [get_table] finds nothing to reflect, and a further
    [drop_table] raises and leaves the database as it is. *)
Theorem drop_table_then_get_table (db : gmap string table)
    (table_name : string) :
  let db' := (db_pgsql.drop_table db table_name).2 in
  db_pgsql.get_table db' table_name = Raise (NoSuchTableError table_name) /\
  db_pgsql.drop_table db' table_name = (Raise (ProgrammingError table_name), db').
Proof.
  cbv zeta.
  assert (Hgone : (db_pgsql.drop_table db table_name).2 !! table_name = None).
  { unfold db_pgsql.drop_table.
    destruct (db !! table_name) as [t|] eqn:Hdb; cbn [snd]; [|done].
    apply lookup_delete_eq. }
  unfold db_pgsql.get_table. unfold db_pgsql.drop_table at 2 4.
  by rewrite !Hgone.
Qed.

(** [create_table] and [drop_table] touch no table of another name. *)
Theorem create_drop_other_tables (db : gmap string table)
    (table_name other : string) (columns : list column) :
  other <> table_name ->
  (db_pgsql.create_table db table_name columns).2 !! other = db !! other /\
  (db_pgsql.drop_table db table_name).2 !! other = db !! other.
Proof.
  intros Hne. unfold db_pgsql.create_table, db_pgsql.drop_table.
  destruct (db !! table_name) as [t|]; cbn [snd]; split; try done.
  - by apply lookup_delete_ne.
  - by apply lookup_insert_ne.
Qed.

Lemma create_drop_other_tables_witness :
  (db_pgsql.create_table Examples.db_x "gadget" Examples.widget_columns).2
    !! "widget" = Examples.db_x !! "widget" /\
  (db_pgsql.drop_table Examples.db_x "gadget").2 !! "widget"
  = Examples.db_x !! "widget".
Proof.
  apply (create_drop_other_tables Examples.db_x "gadget" "widget"
           Examples.widget_columns).
  discriminate.
Defined.

(** ** The session: what a call leaves behind *)

(** [get] finds an instance exactly when [get_or_create] returns it as
    not created, and then [get_or_create] leaves the session as it
    is. *)
Theorem get_iff_get_or_create_found (cls : model_class)
    (kwargs : gmap string value) (session : world) (instance : entity) :
  BasesqlModel.get cls kwargs session = Ok (Some instance) <->
  exists session' : world,
    BasesqlModel.get_or_create cls kwargs session
    = (Ok (instance, false), session').
Proof.
  split.
  - unfold BasesqlModel.get, BasesqlModel.get_or_create.
    intros ->. by exists session.
  - intros (session' & Hcall).
    destruct (get_or_create_inv _ _ _ _ _ Hcall)
      as [(t & r & Hknown & Ht & Hfirst & [= ->] & _)
         |[(t & r & _ & _ & _ & [=] & _)|(e & [=] & _)]].
    unfold BasesqlModel.get, query_filter_by_first.
    by rewrite Hknown, Ht, Hfirst.
Qed.

(** After [get_or_create] has returned, with criteria that bind none of
    [id], [created_at] and [updated_at] to [None], [get] with the same
    criteria finds the instance that was returned, whether it was found
    or created. *)
Theorem get_or_create_then_get (cls : model_class) (kwargs : gmap string value)
    (session session' : world) (instance : entity) (created : bool) :
  (forall k : string,
     k ∈ ["id"; "created_at"; "updated_at"] -> kwargs !! k <> Some VNull) ->
  BasesqlModel.get_or_create cls kwargs session
  = (Ok (instance, created), session') ->
  BasesqlModel.get cls kwargs session' = Ok (Some instance).
Proof.
  intros Hset Hcall. unfold BasesqlModel.get.
  by apply (get_or_create_then_found cls kwargs session session' instance created).
Qed.

Lemma get_or_create_then_get_witness :
  exists (instance : entity),
    BasesqlModel.get Examples.Widget {[ "name" := VStr "z" ]}
      (BasesqlModel.get_or_create Examples.Widget {[ "name" := VStr "z" ]}
         Examples.world_x).2
    = Ok (Some instance) /\
    attrs instance !! "name" = Some (VStr "z").
Proof.
  destruct (BasesqlModel.get_or_create Examples.Widget {[ "name" := VStr "z" ]}
              Examples.world_x) as [[[instance created]|e] session'] eqn:Hcall.
  - exists instance. split.
    + apply (get_or_create_then_get Examples.Widget {[ "name" := VStr "z" ]}
               Examples.world_x session' instance created); [|exact Hcall].
      intros k Hk Hnull. apply lookup_singleton_Some in Hnull as [_ Hnull].
      discriminate Hnull.
    + vm_compute in Hcall. by injection Hcall as <- _ _.
  - vm_compute in Hcall. discriminate Hcall.
Defined.

(** [get_or_create] never removes or rewrites a stored row: the rows of
    the table stay, in their order, at most one row is added after them,
    and the tables of other names are left alone.  This holds for a call
    that raises as well. *)
Theorem get_or_create_keeps_rows (cls : model_class)
    (kwargs : gmap string value) (session session' : world)
    (res : result (entity * bool)) :
  BasesqlModel.get_or_create cls kwargs session = (res, session') ->
  stored_rows (__tablename__ (cls_name cls)) session
    `prefix_of` stored_rows (__tablename__ (cls_name cls)) session' /\
  (length (stored_rows (__tablename__ (cls_name cls)) session')
   <= S (length (stored_rows (__tablename__ (cls_name cls)) session)))%nat /\
  (forall other : string,
     other <> __tablename__ (cls_name cls) ->
     w_db session' !! other = w_db session !! other).
Proof.
  intros Hcall. unfold stored_rows.
  destruct (get_or_create_inv _ _ _ _ _ Hcall)
    as [(t & r & _ & Ht & _ & _ & ->)
       |[(t & r & _ & Ht & _ & _ & _ & _ & _ & Hdb)|(e & _ & Hdb)]].
  - split; [done|]. split; [lia | done].
  - rewrite Hdb, lookup_insert_eq, Ht. cbn [tbl_rows].
    split; [|split].
    + by apply prefix_app_r.
    + rewrite length_app. cbn [length]. lia.
    + intros other Hne. by apply lookup_insert_ne.
  - rewrite Hdb. split; [done|]. split; [lia | done].
Qed.

Lemma get_or_create_keeps_rows_witness :
  stored_rows "widget" Examples.world_x
    `prefix_of`
    stored_rows "widget"
      (BasesqlModel.get_or_create Examples.Widget {[ "name" := VStr "z" ]}
         Examples.world_x).2.
Proof.
  destruct (BasesqlModel.get_or_create Examples.Widget {[ "name" := VStr "z" ]}
              Examples.world_x) as [res session'] eqn:Hcall.
  exact (proj1 (get_or_create_keeps_rows Examples.Widget
                  {[ "name" := VStr "z" ]} Examples.world_x session' res Hcall)).
Defined.

(** ** [save] *)

Lemma changed_same (r : gmap string value) : changed r r = ∅.
Proof.
  apply map_eq. intros k. rewrite lookup_empty.
  apply map_lookup_filter_None_2. right. intros v Hv Hne.
  apply Hne. cbn [fst snd]. by apply col_lookup.
Qed.

(** [save] of an instance that was never persisted stores it under a
    key that is not null: every attribute that has a value is stored as
    it is, [id], [created_at] and [updated_at] are filled in where they
    have none, the other attributes stay as they are, and, for a class
    that maps [id], [get] by the key then finds the saved instance. *)
Theorem save_new_then_get (cls : model_class) (self self' : entity)
    (session session' : world) :
  committed self = None ->
  BasesqlModel.save cls self session = (Ok self', session') ->
  entity_id self' <> VNull /\
  (forall (k : string) (v : value),
     attrs self !! k = Some v -> v <> VNull -> attrs self' !! k = Some v) /\
  (forall k : string,
     k <> "id" -> k <> "created_at" -> k <> "updated_at" ->
     attrs self' !! k = attrs self !! k) /\
  col (attrs self') "created_at" <> VNull /\
  col (attrs self') "updated_at" <> VNull /\
  ("id" ∈ map col_name (cls_columns cls) ->
   BasesqlModel.get cls {[ "id" := entity_id self' ]} session'
   = Ok (Some self')).
Proof.
  intros Hc. unfold BasesqlModel.save.
  destruct (w_db session !! __tablename__ (cls_name cls)) as [t|] eqn:Ht.
  2:{ unfold add_commit. rewrite Ht. discriminate. }
  destruct (add_commit_new cls self session t Ht Hc) as (r & w1 & Hprep & Hadd).
  destruct (prepare_insert_spec (attrs self) session)
    as (r' & w1' & Hprep' & _ & Hkeep & Hrest & Hid & Hcr & Hup & _).
  rewrite Hprep in Hprep'. injection Hprep' as <- <-.
  destruct (row_violation _ t (tbl_rows t) w1 r) as [e|] eqn:Hrow;
    rewrite Hadd; [discriminate|].
  intros [= <- <-]. unfold entity_id. cbn [load attrs].
  split; [done|]. split; [done|]. split; [done|]. split; [done|].
  split; [done|]. intros Hmapped.
  unfold BasesqlModel.get, query_filter_by_first, known_criteria.
  rewrite bool_decide_eq_true_2 by (by apply map_Forall_singleton).
  cbn [set_db w_db]. rewrite lookup_insert_eq. cbn [tbl_rows].
  destruct (row_violation_none _ _ _ _ _ Hrow) as [_ Hfresh].
  rewrite first_match_app.
  - cbn [first_match].
    assert (matches {[ "id" := col r "id" ]} r = true) as ->; [|reflexivity].
    apply matches_spec. by intros k v [<- <-]%lookup_singleton_Some.
  - apply Forall_forall. intros r0 Hr0.
    destruct (matches {[ "id" := col r "id" ]} r0) eqn:Hm; [|reflexivity].
    exfalso. apply Hfresh.
    rewrite matches_spec in Hm.
    rewrite <- (Hm "id" (col r "id")) by apply lookup_singleton_eq.
    unfold ids. apply list_elem_of_fmap. by exists r0.
Qed.

Lemma save_new_then_get_witness :
  exists self' : entity,
    (BasesqlModel.save Examples.Widget
       (Entity {[ "name" := VStr "z" ]} None) Examples.world_x).1 = Ok self' /\
    entity_id self' <> VNull /\
    BasesqlModel.get Examples.Widget {[ "id" := entity_id self' ]}
      (BasesqlModel.save Examples.Widget
         (Entity {[ "name" := VStr "z" ]} None) Examples.world_x).2
    = Ok (Some self').
Proof.
  destruct (BasesqlModel.save Examples.Widget
              (Entity {[ "name" := VStr "z" ]} None) Examples.world_x)
    as [[self'|e] session'] eqn:Hsave.
  - exists self'. split; [reflexivity|].
    destruct (save_new_then_get Examples.Widget
                (Entity {[ "name" := VStr "z" ]} None) self'
                Examples.world_x session' eq_refl Hsave)
      as (Hid & _ & _ & _ & _ & Hget).
    split; [exact Hid|]. apply Hget. vm_compute. apply list_elem_of_here.
  - vm_compute in Hsave. discriminate Hsave.
Defined.

(** [save] of an instance that [get] has just returned, with no
    attribute changed, issues no statement: the instance comes back as it
    is and the session is unchanged; in particular [deleted_at] is not
    written. *)
Theorem get_then_save (cls : model_class) (kwargs : gmap string value)
    (session : world) (instance : entity) :
  BasesqlModel.get cls kwargs session = Ok (Some instance) ->
  BasesqlModel.save cls instance session = (Ok instance, session).
Proof.
  unfold BasesqlModel.get, query_filter_by_first.
  destruct (known_criteria cls kwargs); [|discriminate].
  destruct (w_db session !! __tablename__ (cls_name cls)) as [t|] eqn:Ht;
    [|discriminate].
  destruct (first_match kwargs (tbl_rows t)) as [r|]; [|discriminate].
  intros [= <-]. unfold BasesqlModel.save, add_commit.
  rewrite Ht. cbn [load committed attrs].
  by rewrite changed_same, bool_decide_eq_true_2.
Qed.

Lemma get_then_save_witness :
  BasesqlModel.save Examples.Widget (load Examples.row_x) Examples.world_x
  = (Ok (load Examples.row_x), Examples.world_x).
Proof.
  apply (get_then_save Examples.Widget {[ "name" := VStr "x" ]}).
  vm_compute. reflexivity.
Defined.

(** The UPDATE of [save] rewrites one row, the one with the key of the
    instance: the table keeps its length, every other row stays where it
    is, and the tables of other names are left alone. *)
Theorem save_updates_one_row (cls : model_class) (self self' : entity)
    (session session' : world) (r0 : gmap string value) :
  committed self = Some r0 ->
  changed (attrs self) r0 <> ∅ ->
  BasesqlModel.save cls self session = (Ok self', session') ->
  exists (i : nat) (r : gmap string value),
    stored_rows (__tablename__ (cls_name cls)) session !! i = Some r /\
    col r "id" = col r0 "id" /\
    stored_rows (__tablename__ (cls_name cls)) session' !! i
    = Some (attrs self') /\
    (forall j : nat, j <> i ->
       stored_rows (__tablename__ (cls_name cls)) session' !! j
       = stored_rows (__tablename__ (cls_name cls)) session !! j) /\
    length (stored_rows (__tablename__ (cls_name cls)) session')
    = length (stored_rows (__tablename__ (cls_name cls)) session) /\
    (forall other : string,
       other <> __tablename__ (cls_name cls) ->
       w_db session' !! other = w_db session !! other).
Proof.
  intros Hc Hdirty Hsave.
  destruct (save_persisted _ _ _ _ _ _ Hc Hdirty Hsave)
    as (t & i & r & Ht & Hr & Hid & _ & _ & Hdb).
  exists i, r. unfold stored_rows. rewrite Hdb, lookup_insert_eq, Ht.
  cbn [tbl_rows]. split; [done|]. split; [done|]. split; [|split; [|split]].
  - apply list_lookup_insert_eq. by apply lookup_lt_Some in Hr.
  - intros j Hj. by apply list_lookup_insert_ne.
  - apply length_insert.
  - intros other Hne. by apply lookup_insert_ne.
Qed.

Lemma save_updates_one_row_witness :
  exists (i : nat) (r : gmap string value),
    stored_rows "widget" Examples.world_x !! i = Some r /\
    col r "id" = VInt 1 /\
    length (stored_rows "widget"
              (BasesqlModel.save Examples.Widget Examples.renamed
                 Examples.world_x).2)
    = length (stored_rows "widget" Examples.world_x).
Proof.
  destruct (BasesqlModel.save Examples.Widget Examples.renamed Examples.world_x)
    as [[self'|e] session'] eqn:Hsave.
  - destruct (save_updates_one_row Examples.Widget Examples.renamed self'
                Examples.world_x session' Examples.row_x)
      as (i & r & Hr & Hid & _ & _ & Hlen & _); [reflexivity | | exact Hsave |].
    + intros H. vm_compute in H. discriminate H.
    + exists i, r. split; [exact Hr|]. split; [exact Hid | exact Hlen].
  - vm_compute in Hsave. discriminate Hsave.
Defined.

(** [save] of a persisted instance keeps its [id], unless the caller
    assigned [id]. *)
Theorem save_preserves_id (cls : model_class) (self self' : entity)
    (session session' : world) (r0 : gmap string value) :
  committed self = Some r0 ->
  changed (attrs self) r0 <> ∅ ->
  changed (attrs self) r0 !! "id" = None ->
  BasesqlModel.save cls self session = (Ok self', session') ->
  entity_id self' = col r0 "id" /\ entity_id self' <> VNull.
Proof.
  intros Hc Hdirty Hid Hsave.
  destruct (save_persisted _ _ _ _ _ _ Hc Hdirty Hsave)
    as (t & i & r & Ht & Hr & Hpk & -> & Hrow & _).
  split; [|by apply (row_violation_none _ _ _ _ _ Hrow)].
  unfold entity_id. cbn [load attrs]. rewrite <- Hpk. unfold col, onupdate.
  rewrite (lookup_union_r (_ ∪ _)); [done|].
  apply lookup_union_None_2; [done|]. by apply lookup_singleton_ne.
Qed.

Lemma save_preserves_id_witness :
  saved_col "id"
    (BasesqlModel.save Examples.Widget Examples.renamed Examples.world_x)
  = Some (VInt 1).
Proof.
  destruct (BasesqlModel.save Examples.Widget Examples.renamed Examples.world_x)
    as [[self'|e] session'] eqn:Hsave.
  - unfold saved_col. cbn [fst]. f_equal.
    apply (save_preserves_id Examples.Widget Examples.renamed self'
             Examples.world_x session' Examples.row_x);
      [reflexivity | | reflexivity | exact Hsave].
    intros H. vm_compute in H. discriminate H.
  - vm_compute in Hsave. discriminate Hsave.
Defined.

(** ** [primary_keys] *)

Lemma filter_length_all {A : Type} (p : A -> bool) (l : list A) :
  length (List.filter p l) = length l -> Forall (fun x => p x = true) l.
Proof.
  induction l as [|x l IH]; [constructor|].
  cbn [List.filter]. destruct (p x) eqn:Hx; cbn [length].
  - intros [= H]. constructor; [done | by apply IH].
  - intros H. pose proof (List.filter_length_le p l). lia.
Qed.

Lemma filter_all {A : Type} (p : A -> bool) (l : list A) :
  Forall (fun x => p x = true) l -> List.filter p l = l.
Proof.
  induction 1 as [|x l Hx _ IH]; [reflexivity|].
  cbn [List.filter]. by rewrite Hx, IH.
Qed.

(** [primary_keys] returns the names of all the columns of the table, in
    their order; that is the list of the key columns only for a table
    all of whose columns are key columns. *)
Theorem primary_keys_all_columns (columns : list column) :
  primary_keys columns = map col_name columns /\
  (primary_keys columns = key_names columns <->
   Forall (fun c => col_primary_key c = true) columns).
Proof.
  split; [reflexivity|]. unfold primary_keys, key_names. split.
  - intros H. apply filter_length_all.
    apply (f_equal length) in H. by rewrite !length_map in H.
  - intros H. by rewrite filter_all.
Qed.

(** ** The logger *)

Section logger.
Import BetrLogger.

Lemma written_by_logger_log (levelno : nat) (msg : string) (exc_info : bool)
    (st : logging) :
  written_by st (logger_log levelno msg exc_info st)
  = if (getEffectiveLevel st <=? levelno)%nat
    then callHandlers (LogRecord levelno msg exc_info) st
    else [].
Proof.
  unfold written_by, logger_log.
  destruct (getEffectiveLevel st <=? levelno)%nat; cbn [lg_written].
  - apply drop_app_length.
  - apply drop_all.
Qed.

Lemma setup_times_state (self : betr_logger) (n : nat) :
  lg_level (setup_times self (S n) fresh) = DEBUG /\
  lg_written (setup_times self n fresh) = [] /\
  forall p : handler -> bool,
    length (List.filter p (lg_handlers (setup_times self n fresh)))
    = (n * length (List.filter p
                     [Handler (FileStream (log_std_out_file self)) DEBUG;
                      Handler (FileStream (log_err_file self)) ERROR;
                      Handler ConsoleStream DEBUG]))%nat.
Proof.
  split; [reflexivity|]. induction n as [|n [IHw IHh]]; [by split|].
  cbn [setup_times]. unfold setup_logger. cbn [lg_written lg_handlers].
  split; [exact IHw|]. intros p.
  rewrite List.filter_app, length_app, IHh. lia.
Qed.

Lemma levelno_of_cases (level : string) :
  (level = "info" /\ levelno_of level = INFO) \/
  (level = "warning" /\ levelno_of level = WARNING) \/
  (level = "error" /\ levelno_of level = ERROR) \/
  (level = "critical" /\ levelno_of level = CRITICAL) \/
  (level <> "info" /\ level <> "warning" /\ level <> "error" /\
   level <> "critical" /\ levelno_of level = DEBUG).
Proof.
  unfold levelno_of.
  destruct (String.eqb_spec level "info"); [by left|].
  destruct (String.eqb_spec level "warning"); [by right; left|].
  destruct (String.eqb_spec level "error"); [by right; right; left|].
  destruct (String.eqb_spec level "critical"); [by right; right; right; left|].
  by right; right; right; right.
Qed.

Lemma log_as_logger_log (self : betr_logger) (message level : string)
    (st : logging) :
  log self message (Some level) st
  = logger_log (levelno_of level) message false st.
Proof.
  cbv beta iota zeta delta [log levelno_of from_option id].
  destruct (String.eqb level "info"); [reflexivity|].
  destruct (String.eqb level "warning"); [reflexivity|].
  destruct (String.eqb level "error"); [reflexivity|].
  destruct (String.eqb level "critical"); reflexivity.
Qed.

End logger.

(** Which method of [BetrLogger] is called does not decide the level:
    given a level, [log], [log_critical], [log_debug], [log_info],
    [log_warning] and [log_error] all log the message at the level that
    the string names, and at [DEBUG] for any other string;
    [log_traceback] does the same with [exc_info] set. *)
Theorem log_methods_level (self : BetrLogger.betr_logger) (message level : string)
    (st : BetrLogger.logging) :
  let logged :=
    BetrLogger.logger_log (BetrLogger.levelno_of level) message false st in
  BetrLogger.log self message (Some level) st = logged /\
  BetrLogger.log_critical self message (Some level) st = logged /\
  BetrLogger.log_debug self message (Some level) st = logged /\
  BetrLogger.log_info self message (Some level) st = logged /\
  BetrLogger.log_warning self message (Some level) st = logged /\
  BetrLogger.log_error self message (Some level) st = logged /\
  BetrLogger.log_traceback self message (Some level) st
  = BetrLogger.logger_log (BetrLogger.levelno_of level) message true st.
Proof.
  cbv zeta.
  cbv beta iota zeta delta
    [BetrLogger.log BetrLogger.log_critical BetrLogger.log_debug
     BetrLogger.log_info BetrLogger.log_warning BetrLogger.log_error
     BetrLogger.log_traceback BetrLogger.levelno_of from_option id].
  destruct (String.eqb level "info"); [repeat split; reflexivity|].
  destruct (String.eqb level "warning"); [repeat split; reflexivity|].
  destruct (String.eqb level "error"); [repeat split; reflexivity|].
  destruct (String.eqb level "critical"); repeat split; reflexivity.
Qed.

(** After one [setup_logger], a message goes to the standard-output file
    and to the console whatever its level, and to the error file as well
    exactly when the level given is ["error"] or ["critical"]. *)
Theorem log_after_setup_logger (self : BetrLogger.betr_logger)
    (message level : string) :
  let st := BetrLogger.setup_logger self BetrLogger.fresh in
  let r := BetrLogger.LogRecord (BetrLogger.levelno_of level) message false in
  BetrLogger.lg_written (BetrLogger.log self message (Some level) st)
  = (if bool_decide (level = "error" \/ level = "critical")
     then [(BetrLogger.FileStream (BetrLogger.log_std_out_file self), r);
           (BetrLogger.FileStream (BetrLogger.log_err_file self), r);
           (BetrLogger.ConsoleStream, r)]
     else [(BetrLogger.FileStream (BetrLogger.log_std_out_file self), r);
           (BetrLogger.ConsoleStream, r)]).
Proof.
  cbv zeta.
  rewrite log_as_logger_log.
  destruct (levelno_of_cases level)
    as [[-> ->]|[[-> ->]|[[-> ->]|[[-> ->]|(H1 & H2 & H3 & H4 & ->)]]]];
    try reflexivity.
  rewrite bool_decide_eq_false_2; [reflexivity|]. by intros [?|?].
Qed.

(** Every [setup_logger] adds three handlers more to the one logger of
    the process: after [n + 1] calls, a single call of [log] writes each
    message [n + 1] times to every destination, that is [3 (n + 1)]
    records for the levels ["error"] and ["critical"] and [2 (n + 1)] for
    any other. *)
Theorem setup_logger_repeated (self : BetrLogger.betr_logger)
    (message level : string) (n : nat) :
  let st := BetrLogger.setup_times self (S n) BetrLogger.fresh in
  length (BetrLogger.written_by st (BetrLogger.log self message (Some level) st))
  = (S n * (if bool_decide (level = "error" \/ level = "critical")
            then 3 else 2))%nat.
Proof.
  cbv zeta. rewrite log_as_logger_log, written_by_logger_log.
  destruct (setup_times_state self (S n)) as (_ & _ & Hhandlers).
  destruct (setup_times_state self n) as (Hlevel & _ & _).
  unfold BetrLogger.getEffectiveLevel. rewrite Hlevel.
  change (BetrLogger.DEBUG =? BetrLogger.NOTSET)%nat with false. cbv iota.
  assert (Hle : (BetrLogger.DEBUG <=? BetrLogger.levelno_of level)%nat = true).
  { destruct (levelno_of_cases level)
      as [[_ ->]|[[_ ->]|[[_ ->]|[[_ ->]|(_ & _ & _ & _ & ->)]]]]; reflexivity. }
  rewrite Hle. unfold BetrLogger.callHandlers. cbn [BetrLogger.rec_levelno].
  destruct (BetrLogger.lg_handlers
              (BetrLogger.setup_times self (S n) BetrLogger.fresh))
    as [|h hs] eqn:Hhs.
  { specialize (Hhandlers (fun _ => true)). cbn in Hhandlers. lia. }
  rewrite length_map, Hhandlers.
  destruct (levelno_of_cases level)
    as [[-> ->]|[[-> ->]|[[-> ->]|[[-> ->]|(H1 & H2 & H3 & H4 & ->)]]]];
    try reflexivity.
  rewrite bool_decide_eq_false_2; [reflexivity|]. by intros [?|?].
Qed.

(** Before any [setup_logger] the logger has no level and no handler:
    messages at ["warning"], ["error"] and ["critical"] go to standard
    error through the handler of last resort, and messages at ["info"]
    or any other level are dropped. *)
Theorem log_before_setup_logger (self : BetrLogger.betr_logger)
    (message level : string) :
  BetrLogger.lg_written
    (BetrLogger.log self message (Some level) BetrLogger.fresh)
  = (if bool_decide (level = "warning" \/ level = "error" \/ level = "critical")
     then [(BetrLogger.StderrStream,
            BetrLogger.LogRecord (BetrLogger.levelno_of level) message false)]
     else []).
Proof.
  rewrite log_as_logger_log.
  destruct (levelno_of_cases level)
    as [[-> ->]|[[-> ->]|[[-> ->]|[[-> ->]|(H1 & H2 & H3 & H4 & ->)]]]];
    try reflexivity.
  rewrite bool_decide_eq_false_2; [reflexivity|]. by intros [?|[?|?]].
Qed.

(** ** The configured paths *)

(** The module can be loaded exactly when its file lies at least four
    components below the root of the file system.  Then [BACKEND_DIR] is
    the directory above the one that holds the file, [ROOT_DIR] lies two
    levels above [BACKEND_DIR], and the log and data paths lie under
    [BACKEND_DIR]. *)
Theorem path_config_load (file : list string) :
  match path_config.load file with
  | None => (length file < 4)%nat
  | Some cfg =>
      exists a b c d : string,
        file = (path_config.ROOT_DIR cfg ++ [a; b; c; d])%list /\
        path_config.BACKEND_DIR cfg = (path_config.ROOT_DIR cfg ++ [a; b])%list /\
        path_config.LOGPATH cfg
        = (path_config.ROOT_DIR cfg ++ [a; b; "logs"])%list /\
        path_config.DATA_PATH cfg
        = (path_config.BACKEND_DIR cfg ++ ["data"])%list /\
        path_config.NBA_DATA_PATH cfg
        = (path_config.DATA_PATH cfg ++ ["nba"])%list
  end.
Proof.
  unfold path_config.load, path_config.parents.
  destruct (decide (3 < length file)%nat) as [Hlen|Hlen]; [|lia].
  destruct (decide (1 < length file)%nat) as [_|?]; [|lia].
  cbn [path_config.ROOT_DIR path_config.BACKEND_DIR path_config.LOGPATH
       path_config.DATA_PATH path_config.NBA_DATA_PATH].
  remember (length file) as n eqn:Hn.
  pose proof (take_drop (n - 4) file) as Hsplit.
  pose proof (length_drop file (n - 4)) as Hdrop.
  pose proof (length_take file (n - 4)) as Htake.
  remember (take (n - 4) file) as root eqn:Hroot.
  destruct (drop (n - 4) file) as [|a [|b [|c [|d [|? ?]]]]];
    cbn [length] in Hdrop; try lia.
  exists a, b, c, d. split; [by symmetry|].
  assert (Hbackend : take (n - 2) file = (root ++ [a; b])%list).
  { rewrite <- Hsplit, take_app.
    rewrite take_ge by lia. f_equal.
    replace (n - 2 - length root)%nat with 2%nat by lia.
    reflexivity. }
  unfold path_config.Path. rewrite Hbackend.
  split; [reflexivity|]. split; [by rewrite <- app_assoc|].
  split; [reflexivity|]. by rewrite <- !app_assoc.
Qed.

(** ** [get_or_create]: empty criteria, and the timestamps of a new row *)

(** Without criteria every row matches: on a table that is not empty,
    [get] and [get_or_create] return its first row, and [get_or_create]
    creates nothing. *)
Theorem get_or_create_no_criteria (cls : model_class) (session : world)
    (t : table) (r : gmap string value) (rows : list (gmap string value)) :
  w_db session !! __tablename__ (cls_name cls) = Some t ->
  tbl_rows t = r :: rows ->
  BasesqlModel.get cls ∅ session = Ok (Some (load r)) /\
  BasesqlModel.get_or_create cls ∅ session = (Ok (load r, false), session).
Proof.
  intros Ht Hrows.
  assert (Hr : matches ∅ r = true).
  { apply matches_spec. intros k v Hk. by rewrite lookup_empty in Hk. }
  assert (Hknown : known_criteria cls ∅ = true).
  { apply bool_decide_eq_true_2, map_Forall_empty. }
  split.
  - unfold BasesqlModel.get, query_filter_by_first.
    rewrite Hknown, Ht, Hrows. cbn [first_match]. by rewrite Hr.
  - by apply (get_or_create_found cls ∅ session t Ht Hknown [] rows r).
Qed.

Lemma get_or_create_no_criteria_witness :
  BasesqlModel.get Examples.Widget ∅ Examples.world_x
  = Ok (Some (load Examples.row_x)) /\
  BasesqlModel.get_or_create Examples.Widget ∅ Examples.world_x
  = (Ok (load Examples.row_x, false), Examples.world_x).
Proof.
  apply (get_or_create_no_criteria Examples.Widget Examples.world_x
           (Table Examples.widget_columns [Examples.row_x]) Examples.row_x []);
    reflexivity.
Defined.

(** A row that [get_or_create] creates from criteria that name neither
    [created_at] nor [updated_at] carries two successive readings of the
    clock: [created_at] is the first and [updated_at] the second, so the
    two differ whenever the clock has moved between the two default
    factories. *)
Theorem get_or_create_timestamps (cls : model_class)
    (kwargs : gmap string value) (session session' : world)
    (instance : entity) :
  kwargs !! "created_at" = None ->
  kwargs !! "updated_at" = None ->
  BasesqlModel.get_or_create cls kwargs session
  = (Ok (instance, true), session') ->
  col (attrs instance) "created_at"
  = VTime (w_clock session (w_reads session)) /\
  col (attrs instance) "updated_at"
  = VTime (w_clock session (S (w_reads session))) /\
  w_reads session' = S (S (w_reads session)).
Proof.
  intros Hc Hu.
  unfold BasesqlModel.get_or_create, query_filter_by_first.
  destruct (known_criteria cls kwargs); [|discriminate].
  destruct (w_db session !! __tablename__ (cls_name cls)) as [t|] eqn:Ht;
    [|discriminate].
  destruct (first_match kwargs (tbl_rows t)) as [r|];
    cbn [fmap option_fmap option_map]; [discriminate|].
  unfold construct, default_factory, time_time. rewrite Hc.
  rewrite lookup_insert_ne, Hu by done. cbn [w_db w_clock w_reads].
  set (a := <["updated_at" := _]> (<["created_at" := _]> kwargs)).
  set (w := World _ _ _ _ _ _).
  assert (Hca : a !! "created_at" = Some (VTime (w_clock session (w_reads session)))).
  { unfold a. by rewrite lookup_insert_ne, lookup_insert_eq. }
  assert (Hua : a !! "updated_at"
                = Some (VTime (w_clock session (S (w_reads session))))).
  { unfold a. by rewrite lookup_insert_eq. }
  destruct (add_commit_new cls (Entity a None) w t Ht eq_refl)
    as (r & w1 & Hprep & Hadd).
  cbn [attrs] in Hprep.
  destruct (prepare_insert_spec a w)
    as (r' & w1' & Hprep' & _ & Hkeep & _ & _ & _ & _ & Hreads).
  rewrite Hprep in Hprep'. injection Hprep' as <- <-.
  destruct (row_violation _ t (tbl_rows t) w1 r) as [e|];
    rewrite Hadd; [discriminate|].
  intros [= <- <-]. cbn [load attrs set_db w_reads].
  rewrite (col_lookup r "created_at" _ (Hkeep _ _ Hca ltac:(discriminate))).
  rewrite (col_lookup r "updated_at" _ (Hkeep _ _ Hua ltac:(discriminate))).
  split; [done|]. split; [done|].
  rewrite Hreads; [reflexivity|..].
  - by rewrite (col_lookup a "created_at" _ Hca).
  - by rewrite (col_lookup a "updated_at" _ Hua).
Qed.

Lemma get_or_create_timestamps_witness :
  created_flag
    (BasesqlModel.get_or_create Examples.Widget {[ "name" := VStr "z" ]}
       Examples.world_x) = Some true /\
  exists instance : entity,
    (BasesqlModel.get_or_create Examples.Widget {[ "name" := VStr "z" ]}
       Examples.world_x).1 = Ok (instance, true) /\
    col (attrs instance) "created_at" = VTime 1000 /\
    col (attrs instance) "updated_at" = VTime 1001.
Proof.
  split; [vm_compute; reflexivity|].
  destruct (BasesqlModel.get_or_create Examples.Widget {[ "name" := VStr "z" ]}
              Examples.world_x) as [[[instance created]|e] session'] eqn:Hcall.
  - assert (created = true) as ->.
    { vm_compute in Hcall. by injection Hcall as _ <- _. }
    exists instance. split; [reflexivity|].
    destruct (get_or_create_timestamps Examples.Widget {[ "name" := VStr "z" ]}
                Examples.world_x session' instance) as (Hcr & Hup & _);
      [vm_compute; reflexivity | vm_compute; reflexivity | exact Hcall |].
    by split.
  - vm_compute in Hcall. discriminate Hcall.
Defined.
